(** * Butler chat backend: the [message] handler of [server.py]

    A shallow embedding of the Socket.IO [message] event handler and of the
    module-level data it reads ([canned_responses], [OPENAI_API_KEY],
    [OPENAI_API_URL]), followed by the properties of the handler.

    Modelling conventions.
    - A Python [str] is a [string]: a sequence of code points below 256.
      [str.strip], [str.lower] and [str.isspace] are given for that range.
    - Dynamically typed values (the event payload, the decoded JSON body,
      [response_text]) are values of [pyval]: the values JSON carries.
      A binary attachment of a Socket.IO event (a [bytes] object) is not
      among them.
    - The handler runs in a writer-and-exception monad [M]: a computation
      yields the events it performed ([Log], [Post], [Emit]), in order, and
      either returns or raises.
    - The outside world answers the two library calls of the handler,
      [requests.post] and [sio.emit]; their outcomes are Section variables.
      Library calls return or raise a subclass of [Exception]. *)

From Stdlib Require Import ZArith NArith List String Ascii Bool Lia.
From Stdlib Require Import DecimalString.
From Stdlib Require Import Floats.PrimFloat.
Import ListNotations.
Local Open Scope string_scope.
Set Warnings "-register-all,-inexact-float".

(** ** Python strings *)

Module PyStr.

(** [str.isspace] on one code point below 256: TAB..CR, FS..US, space,
    NEL (0x85) and NBSP (0xA0). *)
Definition isspace (c : ascii) : bool :=
  let n := N_of_ascii c in
  (((9 <=? n) && (n <=? 13)) || ((28 <=? n) && (n <=? 32))
   || (n =? 133) || (n =? 160))%N.

(** [str.lower] on one code point below 256: A..Z and the Latin-1 capitals
    0xC0..0xDE (the multiplication sign 0xD7 apart) move up by 32. *)
Definition lower_char (c : ascii) : ascii :=
  let n := N_of_ascii c in
  if (((65 <=? n) && (n <=? 90))
      || ((192 <=? n) && (n <=? 222) && negb (n =? 215)))%N
  then ascii_of_N (n + 32) else c.

Fixpoint lower (s : string) : string :=
  match s with
  | EmptyString => EmptyString
  | String c s' => String (lower_char c) (lower s')
  end.

Fixpoint lstrip (s : string) : string :=
  match s with
  | EmptyString => EmptyString
  | String c s' => if isspace c then lstrip s' else s
  end.

Fixpoint rstrip (s : string) : string :=
  match s with
  | EmptyString => EmptyString
  | String c s' =>
      match rstrip s' with
      | EmptyString => if isspace c then EmptyString else String c EmptyString
      | r => String c r
      end
  end.

(** [s.strip()] with no argument. *)
Definition strip (s : string) : string := rstrip (lstrip s).

(** [sub in s] for two strings. *)
Fixpoint contains (sub s : string) : bool :=
  String.prefix sub s ||
  match s with
  | EmptyString => false
  | String _ s' => contains sub s'
  end.

(** The decimal text of an integer, as an f-string field prints it. *)
Definition of_Z (z : Z) : string := NilZero.string_of_int (Z.to_int z).

End PyStr.

(** ** Exceptions *)

(** The classes the handler distinguishes, with the builtin ones its own
    expressions raise. [OtherException] stands for any further subclass of
    [Exception] that a library call may raise. *)
Inductive exc_class : Type :=
| RequestException | HTTPError | ConnectionError | Timeout
| ConnectTimeout | ReadTimeout | JSONDecodeError
| KeyError | IndexError | TypeError | AttributeError | ValueError
| OtherException (name : string).

Record exception : Type := mk_exc { exc_cls : exc_class; exc_str : string }.

(** The direct bases of a class inside the hierarchy above; every class is
    below [Exception], which the handler's last clause catches. *)
Definition bases (c : exc_class) : list exc_class :=
  match c with
  | HTTPError | ConnectionError | Timeout => [RequestException]
  | JSONDecodeError => [RequestException; ValueError]
  | ConnectTimeout => [ConnectionError; Timeout]
  | ReadTimeout => [Timeout]
  | _ => []
  end.

Definition exc_class_eqb (c d : exc_class) : bool :=
  match c, d with
  | RequestException, RequestException | HTTPError, HTTPError
  | ConnectionError, ConnectionError | Timeout, Timeout
  | ConnectTimeout, ConnectTimeout | ReadTimeout, ReadTimeout
  | JSONDecodeError, JSONDecodeError
  | KeyError, KeyError | IndexError, IndexError | TypeError, TypeError
  | AttributeError, AttributeError | ValueError, ValueError => true
  | OtherException a, OtherException b => String.eqb a b
  | _, _ => false
  end.

(** [issubclass c d]; the hierarchy is three levels deep. *)
Fixpoint issubclass_upto (fuel : nat) (c d : exc_class) : bool :=
  exc_class_eqb c d ||
  match fuel with
  | O => false
  | S fuel' => existsb (fun b => issubclass_upto fuel' b d) (bases c)
  end.

Definition issubclass : exc_class -> exc_class -> bool := issubclass_upto 3.

Definition isinstance (e : exception) (d : exc_class) : bool :=
  issubclass (exc_cls e) d.

Inductive result (A : Type) : Type :=
| Returns (a : A)
| Raises (e : exception).
Arguments Returns {A} a.
Arguments Raises {A} e.

Definition rbind {A B} (r : result A) (k : A -> result B) : result B :=
  match r with
  | Returns a => k a
  | Raises e => Raises e
  end.

Notation "'let*' x ':=' r 'in' k" := (rbind r (fun x => k))
  (at level 10, x name, r at level 100, k at level 200).

(** ** Python values *)

(** The values JSON carries: [None], [bool], [int], [float], [str], [list]
    and [dict] with str keys. A [bytes] object is not represented. *)
Inductive pyval : Type :=
| PNone
| PBool (b : bool)
| PInt (z : Z)
| PFloat (f : float)
| PStr (s : string)
| PList (l : list pyval)
| PDict (d : list (string * pyval)).

Module PyVal.

(** Truth value of an object, as [if], [not] and [and] test it. *)
Definition truthy (v : pyval) : bool :=
  match v with
  | PNone => false
  | PBool b => b
  | PInt z => negb (z =? 0)%Z
  | PFloat f => negb (PrimFloat.eqb f 0%float)
  | PStr s => negb (s =? "")
  | PList l => match l with [] => false | _ => true end
  | PDict d => match d with [] => false | _ => true end
  end.

Definition type_name (v : pyval) : string :=
  match v with
  | PNone => "NoneType" | PBool _ => "bool" | PInt _ => "int"
  | PFloat _ => "float" | PStr _ => "str" | PList _ => "list"
  | PDict _ => "dict"
  end.

(** Lookup in a dict given by its items. *)
Fixpoint lookup {A : Type} (k : string) (d : list (string * A)) : option A :=
  match d with
  | [] => None
  | (k', v) :: d' => if k' =? k then Some v else lookup k d'
  end.

Definition is_str (k : string) (v : pyval) : bool :=
  match v with PStr s => s =? k | _ => false end.

(** [k in v] for a string [k]: key membership in a dict, element membership
    in a list, substring test in a str; other types are not iterable. *)
Definition contains (k : string) (v : pyval) : result bool :=
  match v with
  | PDict d => Returns (match lookup k d with Some _ => true | None => false end)
  | PList l => Returns (existsb (is_str k) l)
  | PStr s => Returns (PyStr.contains k s)
  | _ => Raises (mk_exc TypeError
                   ("argument of type '" ++ type_name v ++ "' is not iterable"))
  end.

(** [v[k]] for a string [k]. *)
Definition getitem_key (v : pyval) (k : string) : result pyval :=
  match v with
  | PDict d =>
      match lookup k d with
      | Some x => Returns x
      | None => Raises (mk_exc KeyError ("'" ++ k ++ "'"))
      end
  | PList _ => Raises (mk_exc TypeError "list indices must be integers or slices, not str")
  | PStr _ => Raises (mk_exc TypeError "string indices must be integers")
  | _ => Raises (mk_exc TypeError
                   ("'" ++ type_name v ++ "' object is not subscriptable"))
  end.

Definition index_in (i : Z) (len : nat) : option nat :=
  let n := Z.of_nat len in
  if ((0 <=? i) && (i <? n))%Z then Some (Z.to_nat i)
  else if ((- n <=? i) && (i <? 0))%Z then Some (Z.to_nat (i + n))
  else None.

(** [v[i]] for an integer [i]; the keys of a dict here are strings, so an
    integer is never among them. *)
Definition getitem_index (v : pyval) (i : Z) : result pyval :=
  match v with
  | PList l =>
      match index_in i (List.length l) with
      | Some n =>
          match nth_error l n with
          | Some x => Returns x
          | None => Raises (mk_exc IndexError "list index out of range")
          end
      | None => Raises (mk_exc IndexError "list index out of range")
      end
  | PStr s =>
      match index_in i (String.length s) with
      | Some n =>
          match String.get n s with
          | Some c => Returns (PStr (String c EmptyString))
          | None => Raises (mk_exc IndexError "string index out of range")
          end
      | None => Raises (mk_exc IndexError "string index out of range")
      end
  | PDict _ => Raises (mk_exc KeyError (PyStr.of_Z i))
  | _ => Raises (mk_exc TypeError
                   ("'" ++ type_name v ++ "' object is not subscriptable"))
  end.

(** [v.strip()]: only a str has the method. *)
Definition strip (v : pyval) : result string :=
  match v with
  | PStr s => Returns (PyStr.strip s)
  | _ => Raises (mk_exc AttributeError
                   ("'" ++ type_name v ++ "' object has no attribute 'strip'"))
  end.

(** [v.get(k, default)]: only a dict has the method. *)
Definition get (v : pyval) (k : string) (default : pyval) : result pyval :=
  match v with
  | PDict d => Returns (match lookup k d with Some x => x | None => default end)
  | _ => Raises (mk_exc AttributeError
                   ("'" ++ type_name v ++ "' object has no attribute 'get'"))
  end.

End PyVal.

(** ** Events and the handler's monad *)

Inductive level : Type := DEBUG | INFO | WARNING | ERROR | CRITICAL.

(** A log line is the f-string of the source with its fields filled in:
    literal text, a str field, or a field holding any object. *)
Inductive fpart : Type :=
| Lit (s : string)
| Fstr (s : string)
| Fval (v : pyval).

(** The arguments of [requests.post(url, headers=, json=, timeout=)]. *)
Record request : Type := mk_request {
  req_url : string;
  req_headers : list (string * string);
  req_json : pyval;
  req_timeout : Z
}.

(** What the handler reads of the object [requests.post] returns. *)
Record Response : Type := mk_Response {
  status_code : Z;
  reason : string;
  resp_url : string;
  json : result pyval   (* outcome of [.json()] *)
}.

Inductive event : Type :=
| Log (lvl : level) (msg : list fpart) (exc_info : option exception)
| Post (r : request)
| Emit (ev : string) (data : pyval) (room : option string).

(** A computation: the events it performed, in order, and its outcome. *)
Definition M (A : Type) : Type := (list event * result A)%type.

Definition ret {A} (a : A) : M A := ([], Returns a).

Definition lift {A} (r : result A) : M A := ([], r).

Definition bind {A B} (m : M A) (k : A -> M B) : M B :=
  match m with
  | (t, Raises e) => (t, Raises e)
  | (t, Returns a) => let (t', r) := k a in ((t ++ t')%list, r)
  end.

(** [try: m  except ... as e: h e], with [h] deciding on the class. *)
Definition try_except {A} (m : M A) (h : exception -> M A) : M A :=
  match m with
  | (t, Raises e) => let (t', r) := h e in ((t ++ t')%list, r)
  | (t, Returns a) => (t, Returns a)
  end.

Notation "x <- m ;; k" := (bind m (fun x => k))
  (at level 61, m at next level, right associativity).
Notation "m ;;; k" := (bind m (fun _ => k))
  (at level 61, right associativity).

Definition trace {A} (m : M A) : list event := fst m.
Definition outcome {A} (m : M A) : result A := snd m.

Definition logger (lvl : level) (msg : list fpart) : M unit :=
  ([Log lvl msg None], Returns tt).

(** [logger.exception(msg)] inside a handler: level ERROR with the
    exception being handled attached. *)
Definition logger_exception (msg : list fpart) (e : exception) : M unit :=
  ([Log ERROR msg (Some e)], Returns tt).

(** [Response.raise_for_status()], the library's: an [HTTPError] for a 4xx
    or 5xx status, nothing otherwise. *)
Definition raise_for_status (r : Response) : result unit :=
  let c := status_code r in
  if ((400 <=? c) && (c <? 500))%Z then
    Raises (mk_exc HTTPError
      (PyStr.of_Z c ++ " Client Error: " ++ reason r ++ " for url: " ++ resp_url r))
  else if ((500 <=? c) && (c <? 600))%Z then
    Raises (mk_exc HTTPError
      (PyStr.of_Z c ++ " Server Error: " ++ reason r ++ " for url: " ++ resp_url r))
  else Returns tt.

(** ** Module-level data *)

Definition canned_responses : list (string * string) :=
  [ ("hello", "Greetings. How may I be of service?");
    ("how are you", "As well as can be expected, given the circumstances. And you?");
    ("what is the time", "One moment, I shall consult the chronometer.");
    ("tell me a secret", "A good butler keeps his secrets, sir.");
    ("what do you know about spain", "Spain, a land of rich history and vibrant culture. A fascinating place indeed.");
    ("goodnight", "Sleep well, master. May your rest be undisturbed.");
    ("thank you", "You are most welcome, sir.") ].

Definition msg_not_configured : string :=
  "Master, the external service key is not configured.".
Definition msg_uninterpretable : string :=
  "Forgive me, master, the external service returned an uninterpretable response.".
Definition msg_timeout : string :=
  "Master, the external service took too long to respond. Pray, try again.".
Definition msg_contact_issue : string :=
  "I encountered an issue contacting the external service, master: ".
Definition msg_internal_error : string :=
  "An unexpected internal error has occurred, master.".

Definition system_prompt : string :=
  "You are a professional butler assisting your master. Respond concisely and politely.".

(** ** The handler *)

Section Server.

(** [os.environ.get('OPENAI_API_KEY')]: [None] when the variable is unset. *)
Variable OPENAI_API_KEY : option string.
Variable OPENAI_API_URL : string.

(** How the outside world answers [requests.post] and [sio.emit]. *)
Variable post_outcome : request -> result Response.
Variable emit_outcome : string -> pyval -> option string -> result unit.

Definition requests_post (r : request) : M Response :=
  ([Post r], post_outcome r).

Definition sio_emit (ev : string) (data : pyval) (room : option string) : M unit :=
  ([Emit ev data room], emit_outcome ev data room).

(** The credential as the object the conditions test, and as the f-string
    of the Authorization header prints it. *)
Definition key_object : pyval :=
  match OPENAI_API_KEY with Some k => PStr k | None => PNone end.

Definition key_text : string :=
  match OPENAI_API_KEY with Some k => k | None => "None" end.

(** [response_data and 'choices' in response_data and response_data['choices']],
    as the [if] of line 139 tests it: [and] stops at the first false
    operand, and the membership test or the subscript may raise. *)
Definition has_choices (response_data : pyval) : result bool :=
  if negb (PyVal.truthy response_data) then Returns false
  else
    let* present := PyVal.contains "choices" response_data in
    if negb present then Returns false
    else
      let* choices := PyVal.getitem_key response_data "choices" in
      Returns (PyVal.truthy choices).

(** [response_data['choices'][0]['message']['content']]. *)
Definition first_choice_content (response_data : pyval) : result pyval :=
  let* choices := PyVal.getitem_key response_data "choices" in
  let* choice := PyVal.getitem_index choices 0 in
  let* msg := PyVal.getitem_key choice "message" in
  PyVal.getitem_key msg "content".

Definition openai_request (user_message : string) : request :=
  let headers :=
    [ ("Authorization", "Bearer " ++ key_text);
      ("Content-Type", "application/json") ] in
  let payload :=
    PDict
      [ ("model", PStr "gpt-3.5-turbo");
        ("messages",
         PList [ PDict [("role", PStr "system"); ("content", PStr system_prompt)];
                 PDict [("role", PStr "user"); ("content", PStr user_message)] ]);
        ("temperature", PFloat 0.7);
        ("max_tokens", PInt 150) ] in
  mk_request OPENAI_API_URL headers payload 20.

(** The body of the [try] of lines 118-144. *)
Definition call_openai (user_message : string) : M pyval :=
  openai_response <- requests_post (openai_request user_message) ;;
  lift (raise_for_status openai_response) ;;;
  response_data <- lift (json openai_response) ;;
  ok <- lift (has_choices response_data) ;;
  if ok then
    content <- lift (first_choice_content response_data) ;;
    response_text <- lift (PyVal.strip content) ;;
    logger INFO [Lit "Received response from OpenAI: "; Fstr response_text] ;;;
    ret (PStr response_text)
  else
    logger ERROR [Lit "OpenAI API returned unexpected response format: ";
                  Fval response_data] ;;;
    ret (PStr msg_uninterpretable).

(** The three [except] clauses of lines 146-154, tried in order. *)
Definition openai_handlers (e : exception) : M pyval :=
  if isinstance e Timeout then
    logger ERROR [Lit "OpenAI API request timed out."] ;;;
    ret (PStr msg_timeout)
  else if isinstance e RequestException then
    logger ERROR [Lit "Error calling OpenAI API: "; Fstr (exc_str e)] ;;;
    ret (PStr (msg_contact_issue ++ exc_str e))
  else
    logger_exception
      [Lit "An unexpected error occurred during OpenAI processing:"] e ;;;
    ret (PStr msg_internal_error).

(** Lines 102-154, "Process Message": the value of [response_text] when
    line 157 is reached. The membership test of line 106 and the subscript
    of line 107 are the one lookup of the lowered text in the table. *)
Definition process_message (user_message : string) : M pyval :=
  match PyVal.lookup (PyStr.lower user_message) canned_responses with
  | Some reply =>
      logger INFO [Lit "Using canned response for '"; Fstr user_message;
                   Lit "': "; Fstr reply] ;;;
      ret (PStr reply)
  | None =>
      logger INFO [Lit "Sending message to OpenAI API: '"; Fstr user_message;
                   Lit "'"] ;;;
      if negb (PyVal.truthy key_object) then
        logger CRITICAL [Lit "OPENAI_API_KEY is not set. Cannot call OpenAI API."] ;;;
        ret (PStr msg_not_configured)
      else
        try_except (call_openai user_message) openai_handlers
  end.

(** Lines 157-164, "Send Response Back to Client". *)
Definition send_response (sid : string) (response_text : pyval) : M unit :=
  if PyVal.truthy response_text then
    try_except
      (sio_emit "message"
         (PDict [("user", PStr "Butler"); ("text", response_text)]) (Some sid) ;;;
       logger INFO [Lit "Sent response to "; Fstr sid; Lit ": "; Fval response_text])
      (fun e =>
         logger ERROR [Lit "Error sending message to client "; Fstr sid;
                       Lit ": "; Fstr (exc_str e)])
  else ret tt.

(** [message(sid, data)]. *)
Definition message (sid : string) (data : pyval) : M unit :=
  logger INFO [Lit "Message from "; Fstr sid; Lit ": "; Fval data] ;;;
  text <- lift (PyVal.get data "text" (PStr "")) ;;
  user_message <- lift (PyVal.strip text) ;;
  if negb (PyVal.truthy (PStr user_message)) then
    logger WARNING [Lit "Received empty message from "; Fstr sid]
  else
    response_text <- process_message user_message ;;
    send_response sid response_text.

(** ** Observations on a trace *)

Definition is_post (ev : event) : bool :=
  match ev with Post _ => true | _ => false end.

Definition is_emit (ev : event) : bool :=
  match ev with Emit _ _ _ => true | _ => false end.

Definition posts (t : list event) : list event := filter is_post t.
Definition emits (t : list event) : list event := filter is_emit t.

(** The one reply the handler can emit: event [message], speaker [Butler],
    delivered to the room of the session [sid] only. *)
Definition reply_to (sid : string) (text : string) : event :=
  Emit "message" (PDict [("user", PStr "Butler"); ("text", PStr text)]) (Some sid).


(** A credential is configured when [OPENAI_API_KEY] is a non-empty str:
    [not OPENAI_API_KEY] holds for [None] and for the empty string. *)
Definition credential_configured : bool := PyVal.truthy key_object.

(** The success body of the completion service: an object with a [choices]
    array whose first element has [message.content], a string. *)
Definition well_formed_body (body : pyval) (content : string) : Prop :=
  exists d choice rest m,
    body = PDict d /\
    PyVal.lookup "choices" d = Some (PList (PDict choice :: rest)) /\
    PyVal.lookup "message" choice = Some (PDict m) /\
    PyVal.lookup "content" m = Some (PStr content).

(** The text of an inbound payload is blank: no [text] field, or a str
    that is empty once trimmed. *)
Definition blank_text (d : list (string * pyval)) : Prop :=
  PyVal.lookup "text" d = None \/
  exists s, PyVal.lookup "text" d = Some (PStr s) /\ PyStr.strip s = "".

(** The outbound call for [user_message] went through and the expression
    of line 140 found the str [content] in the body. *)
Definition completion (user_message content : string) : Prop :=
  exists resp body,
    post_outcome (openai_request user_message) = Returns resp /\
    raise_for_status resp = Returns tt /\
    json resp = Returns body /\
    has_choices body = Returns true /\
    first_choice_content body = Returns (PStr content).

(** The outbound call for [user_message] failed at the transport or HTTP
    level with the error [e]: [requests.post] raised a [RequestException]
    that is not a [Timeout], or the response has a 4xx or 5xx status and
    [raise_for_status] raised [e]. *)
Definition contact_failure (user_message : string) (e : exception) : Prop :=
  (post_outcome (openai_request user_message) = Raises e /\
   isinstance e RequestException = true /\
   isinstance e Timeout = false) \/
  (exists resp,
     post_outcome (openai_request user_message) = Returns resp /\
     (400 <= status_code resp < 600)%Z /\
     raise_for_status resp = Raises e).

Definition is_critical (ev : event) : bool :=
  match ev with Log CRITICAL _ _ => true | _ => false end.

(** ** Worlds used to run the handler on concrete inputs *)

Definition emit_ok (ev : string) (data : pyval) (room : option string)
  : result unit := Returns tt.

Definition emit_fails (ev : string) (data : pyval) (room : option string)
  : result unit := Raises (mk_exc (OtherException "BrokenPipeError") "Broken pipe").

Definition body_with_content (c : string) : pyval :=
  PDict [("choices", PList [PDict [("message", PDict [("content", PStr c)])]])].

Definition post_returns (status : Z) (why : string) (body : pyval)
  (r : request) : result Response :=
  Returns (mk_Response status why (req_url r) (Returns body)).

Definition post_raises (e : exception) (r : request) : result Response :=
  Raises e.

Definition test_url : string := "https://api.openai.com/v1/chat/completions".

(** The text of the error the HTTP library raises when the connection is
    refused. *)
Definition raw_connection_error : string :=
  "HTTPSConnectionPool(host='api.openai.com', port=443): Max retries exceeded with url: /v1/chat/completions (Caused by NewConnectionError: [Errno 111] Connection refused)".

Definition payload (text : string) : pyval := PDict [("text", PStr text)].

(** A success body whose first choice is an empty object. *)
Definition body_without_message : pyval :=
  PDict [("choices", PList [PDict []])].

(** ** Basic facts on the monad and on traces *)



Lemma surjective_M {A} (m : M A) : m = (trace m, outcome m).
Proof. now destruct m. Qed.



(** ** Trimming and lowercasing on examples *)

Example strip_sunny : PyStr.strip " Sunny today. " = "Sunny today.".
Proof. reflexivity. Qed.

Example strip_blank : PyStr.strip "   " = "".
Proof. reflexivity. Qed.

Example strip_inner_blank_kept : PyStr.strip "  how are  you " = "how are  you".
Proof. reflexivity. Qed.

Example lower_hello : PyStr.lower "HeLLo, World 42!" = "hello, world 42!".
Proof. reflexivity. Qed.

Lemma lower_length s : String.length (PyStr.lower s) = String.length s.
Proof.
  induction s as [|c s IH]; cbn; [reflexivity | now rewrite IH].
Qed.

Lemma lstrip_no_leading_space s c r :
  PyStr.lstrip s = String c r -> PyStr.isspace c = false.
Proof.
  induction s as [|a s IH]; cbn; [discriminate|].
  destruct (PyStr.isspace a) eqn:Ha; [exact IH|].
  intros [= <- <-]. exact Ha.
Qed.

(** ** The canned-response table *)

Lemma canned_reply_nonempty k v :
  PyVal.lookup k canned_responses = Some v -> v <> "".
Proof.
  unfold canned_responses. cbn [PyVal.lookup].
  repeat match goal with
         | |- context [if ?b then _ else _] => destruct b
         end; intros [=]; subst; discriminate.
Qed.

Lemma empty_not_canned : PyVal.lookup (PyStr.lower "") canned_responses = None.
Proof. reflexivity. Qed.

Lemma canned_hit_nonempty um v :
  PyVal.lookup (PyStr.lower um) canned_responses = Some v -> um <> "".
Proof. intros H ->. now rewrite empty_not_canned in H. Qed.

Lemma credential_configured_false :
  credential_configured = false <->
  OPENAI_API_KEY = None \/ OPENAI_API_KEY = Some "".
Proof.
  unfold credential_configured, key_object.
  destruct OPENAI_API_KEY as [k|]; cbn.
  - destruct (String.eqb_spec k ""); cbn; split.
    + subst. auto.
    + reflexivity.
    + discriminate.
    + intros [H|H]; congruence.
  - split; auto.
Qed.

Lemma truthy_PStr s : PyVal.truthy (PStr s) = true <-> s <> "".
Proof.
  cbn. destruct (String.eqb_spec s ""); cbn; split; congruence.
Qed.


(** ** Sending a reply *)

Lemma send_response_spec sid s :
  outcome (send_response sid (PStr s)) = Returns tt /\
  posts (trace (send_response sid (PStr s))) = [] /\
  emits (trace (send_response sid (PStr s))) =
    if s =? "" then [] else [reply_to sid s].
Proof.
  unfold send_response. cbn [PyVal.truthy].
  destruct (s =? ""); cbn [negb]; [now cbn|].
  unfold try_except, sio_emit, bind, reply_to.
  destruct (emit_outcome _ _ _) as [[]|e]; now cbn.
Qed.

(** ** The outbound call *)

Lemma call_openai_trace um :
  posts (trace (call_openai um)) = [Post (openai_request um)] /\
  emits (trace (call_openai um)) = [].
Proof.
  unfold call_openai, requests_post, bind, lift.
  destruct (post_outcome _) as [resp|e]; [|now cbn].
  destruct (raise_for_status resp); [|now cbn].
  destruct (json resp) as [body|]; [|now cbn].
  destruct (has_choices body) as [[|]|]; [| now cbn | now cbn].
  destruct (first_choice_content body) as [content|]; [|now cbn].
  destruct (PyVal.strip content); now cbn.
Qed.

Lemma strip_returns content s :
  PyVal.strip content = Returns s ->
  exists c, content = PStr c /\ s = PyStr.strip c.
Proof.
  destruct content; cbn; intros [=]. eauto.
Qed.

Lemma call_openai_value um v :
  outcome (call_openai um) = Returns v ->
  v = PStr msg_uninterpretable \/
  exists c, completion um c /\ v = PStr (PyStr.strip c).
Proof.
  unfold completion, call_openai, requests_post, bind, lift.
  destruct (post_outcome _) as [resp|e]; [|now cbn].
  destruct (raise_for_status resp) as [[]|] eqn:Hs; [|now cbn].
  destruct (json resp) as [body|] eqn:Hj; [|now cbn].
  destruct (has_choices body) as [[|]|] eqn:Hc; [| | now cbn].
  - destruct (first_choice_content body) as [content|] eqn:Hf; [|now cbn].
    destruct (PyVal.strip content) as [s|] eqn:Hstrip; [|now cbn].
    apply strip_returns in Hstrip as (c & -> & ->).
    cbn. intros [= <-]. right. exists c. split; [|reflexivity].
    exists resp, body. auto.
  - cbn. intros [= <-]. now left.
Qed.

Lemma contact_issue_nonempty diag : msg_contact_issue ++ diag <> "".
Proof. discriminate. Qed.

Lemma openai_handlers_spec e :
  exists s, s <> "" /\
    outcome (openai_handlers e) = Returns (PStr s) /\
    posts (trace (openai_handlers e)) = [] /\
    emits (trace (openai_handlers e)) = [].
Proof.
  unfold openai_handlers.
  destruct (isinstance e Timeout).
  - exists msg_timeout. cbn. repeat split; discriminate.
  - destruct (isinstance e RequestException).
    + exists (msg_contact_issue ++ exc_str e). cbn.
      repeat split; discriminate.
    + exists msg_internal_error. cbn. repeat split; discriminate.
Qed.

(** ** Processing a message *)

(** [response_text] is always a str when line 157 is reached, nothing is
    emitted before, at most the one request was posted, and the str is
    empty only when a completion came back blank. *)
Lemma process_message_spec um :
  exists s,
    outcome (process_message um) = Returns (PStr s) /\
    emits (trace (process_message um)) = [] /\
    (posts (trace (process_message um)) = [] \/
     posts (trace (process_message um)) = [Post (openai_request um)]) /\
    (s = "" -> exists c, completion um c /\ PyStr.strip c = "").
Proof.
  unfold process_message.
  destruct (PyVal.lookup _ canned_responses) as [reply|] eqn:Hc.
  - exists reply. cbn. repeat split; auto.
    intros ->. now apply canned_reply_nonempty in Hc.
  - destruct (PyVal.truthy key_object); cbn [negb].
    + pose proof (call_openai_trace um) as [Hp He].
      pose proof (call_openai_value um) as Hv.
      destruct (call_openai um) as [t [v|e]];
        unfold trace, outcome, posts, emits in *; cbn [fst snd] in *.
      * destruct (Hv v eq_refl) as [-> | (c & Hcomp & ->)].
        -- exists msg_uninterpretable. cbn. rewrite Hp, He.
           repeat split; auto. discriminate.
        -- exists (PyStr.strip c). cbn. rewrite Hp, He.
           repeat split; auto. intros E. eauto.
      * destruct (openai_handlers_spec e) as (s & Hs & Hout & Hps & Hes).
        exists s. unfold try_except, bind, logger.
        destruct (openai_handlers e) as [t' r'].
        unfold trace, outcome, posts, emits in *; cbn [fst snd] in *.
        subst r'. cbn. rewrite !filter_app, Hp, He, Hps, Hes.
        repeat split; auto. intros ->. congruence.
    + exists msg_not_configured. cbn. repeat split; auto. discriminate.
Qed.

(** ** The whole handler *)

Lemma message_blank sid d :
  blank_text d ->
  message sid (PDict d) =
    ([Log INFO [Lit "Message from "; Fstr sid; Lit ": "; Fval (PDict d)] None;
      Log WARNING [Lit "Received empty message from "; Fstr sid] None],
     Returns tt).
Proof.
  unfold message, logger, lift, bind. cbn [PyVal.get].
  intros [H | (s & H & Hs)]; rewrite H; cbn [PyVal.strip].
  - reflexivity.
  - rewrite Hs. reflexivity.
Qed.

Lemma message_routed sid d s rt :
  PyVal.lookup "text" d = Some (PStr s) ->
  PyStr.strip s <> "" ->
  outcome (process_message (PyStr.strip s)) = Returns (PStr rt) ->
  outcome (message sid (PDict d)) = Returns tt /\
  posts (trace (message sid (PDict d))) =
    posts (trace (process_message (PyStr.strip s))) /\
  emits (trace (message sid (PDict d))) =
    (emits (trace (process_message (PyStr.strip s))) ++
     if rt =? "" then [] else [reply_to sid rt])%list.
Proof.
  intros Hd Hs Hrt.
  unfold message, logger, lift, bind. cbn [PyVal.get]. rewrite Hd.
  cbn [PyVal.strip].
  apply truthy_PStr in Hs. rewrite Hs. cbn [negb].
  destruct (send_response_spec sid rt) as (Ho & Hp & He).
  destruct (process_message (PyStr.strip s)) as [t r].
  unfold trace, outcome in Hrt |- *. cbn [fst snd] in Hrt |- *. subst r.
  destruct (send_response sid (PStr rt)) as [t2 r2].
  unfold trace, outcome, posts, emits in *. cbn [fst snd] in *. subst r2.
  cbn. rewrite !filter_app, Hp, He, app_nil_r. auto.
Qed.

Lemma well_formed_body_choices body c :
  well_formed_body body c ->
  has_choices body = Returns true /\
  first_choice_content body = Returns (PStr c).
Proof.
  intros (d & choice & rest & m & -> & Hc & Hm & Hcont).
  unfold has_choices, first_choice_content, rbind.
  cbn [PyVal.truthy PyVal.contains PyVal.getitem_key].
  rewrite Hc. destruct d as [|kv d]; [discriminate|].
  cbn. rewrite Hm. cbn. rewrite Hcont. auto.
Qed.

Lemma raise_for_status_ok resp :
  (200 <= status_code resp < 300)%Z -> raise_for_status resp = Returns tt.
Proof.
  intros H. unfold raise_for_status.
  destruct (Z.leb_spec 400 (status_code resp)); [lia|].
  destruct (Z.leb_spec 500 (status_code resp)); [lia|]. reflexivity.
Qed.

Lemma raise_for_status_error resp :
  (400 <= status_code resp < 600)%Z ->
  exists diag, raise_for_status resp = Raises (mk_exc HTTPError diag).
Proof.
  intros H. unfold raise_for_status.
  destruct (Z.leb_spec 400 (status_code resp)); [|lia].
  destruct (Z.ltb_spec (status_code resp) 500); cbn [andb]; [eauto|].
  destruct (Z.leb_spec 500 (status_code resp)); [|lia].
  destruct (Z.ltb_spec (status_code resp) 600); [|lia].
  cbn [andb]. eauto.
Qed.

(** On a miss with a credential, [response_text] is what the [try]
    statement leaves. *)
Lemma process_message_miss um :
  PyVal.lookup (PyStr.lower um) canned_responses = None ->
  credential_configured = true ->
  process_message um =
    (logger INFO [Lit "Sending message to OpenAI API: '"; Fstr um; Lit "'"] ;;;
     try_except (call_openai um) openai_handlers).
Proof.
  intros Hc Hk. unfold process_message, credential_configured in *.
  now rewrite Hc, Hk.
Qed.

Lemma process_message_raised um e :
  PyVal.lookup (PyStr.lower um) canned_responses = None ->
  credential_configured = true ->
  outcome (call_openai um) = Raises e ->
  outcome (process_message um) = outcome (openai_handlers e).
Proof.
  intros Hc Hk Ho. rewrite (process_message_miss um Hc Hk).
  unfold logger, bind, try_except.
  destruct (call_openai um) as [t r]. cbn in Ho. subst r.
  now destruct (openai_handlers e).
Qed.

Lemma process_message_returned um v :
  PyVal.lookup (PyStr.lower um) canned_responses = None ->
  credential_configured = true ->
  outcome (call_openai um) = Returns v ->
  outcome (process_message um) = Returns v.
Proof.
  intros Hc Hk Ho. rewrite (process_message_miss um Hc Hk).
  unfold logger, bind, try_except.
  destruct (call_openai um) as [t r]. cbn in Ho. now subst r.
Qed.

Lemma call_openai_post_raises um e :
  post_outcome (openai_request um) = Raises e ->
  outcome (call_openai um) = Raises e.
Proof.
  intros H. unfold call_openai, requests_post, bind. now rewrite H.
Qed.

Lemma call_openai_status_raises um resp e :
  post_outcome (openai_request um) = Returns resp ->
  raise_for_status resp = Raises e ->
  outcome (call_openai um) = Raises e.
Proof.
  intros H H'. unfold call_openai, requests_post, bind, lift.
  now rewrite H, H'.
Qed.

Lemma call_openai_content um resp body c :
  post_outcome (openai_request um) = Returns resp ->
  raise_for_status resp = Returns tt ->
  json resp = Returns body ->
  has_choices body = Returns true ->
  first_choice_content body = Returns (PStr c) ->
  outcome (call_openai um) = Returns (PStr (PyStr.strip c)).
Proof.
  intros H1 H2 H3 H4 H5. unfold call_openai, requests_post, bind, lift.
  rewrite H1, H2, H3, H4, H5. reflexivity.
Qed.

Lemma call_openai_no_choices um resp body :
  post_outcome (openai_request um) = Returns resp ->
  raise_for_status resp = Returns tt ->
  json resp = Returns body ->
  has_choices body = Returns false ->
  outcome (call_openai um) = Returns (PStr msg_uninterpretable).
Proof.
  intros H1 H2 H3 H4. unfold call_openai, requests_post, bind, lift.
  rewrite H1, H2, H3, H4. reflexivity.
Qed.

Lemma message_reply sid d s rt :
  PyVal.lookup "text" d = Some (PStr s) ->
  PyStr.strip s <> "" ->
  outcome (process_message (PyStr.strip s)) = Returns (PStr rt) ->
  outcome (message sid (PDict d)) = Returns tt /\
  emits (trace (message sid (PDict d))) =
    if rt =? "" then [] else [reply_to sid rt].
Proof.
  intros Hd Hs Ho.
  destruct (message_routed sid d s rt Hd Hs Ho) as (Hout & _ & Hemits).
  destruct (process_message_spec (PyStr.strip s)) as (rt' & _ & He & _).
  rewrite He in Hemits. auto.
Qed.

Lemma message_reply_nonempty sid d s rt :
  PyVal.lookup "text" d = Some (PStr s) ->
  PyStr.strip s <> "" ->
  outcome (process_message (PyStr.strip s)) = Returns (PStr rt) ->
  rt <> "" ->
  outcome (message sid (PDict d)) = Returns tt /\
  emits (trace (message sid (PDict d))) = [reply_to sid rt].
Proof.
  intros Hd Hs Ho Hrt.
  destruct (message_reply sid d s rt Hd Hs Ho) as (Hout & Hemits).
  apply String.eqb_neq in Hrt. rewrite Hrt in Hemits. auto.
Qed.

Lemma message_posts sid data :
  posts (trace (message sid data)) = [] \/
  exists um, posts (trace (message sid data)) = [Post (openai_request um)].
Proof.
  destruct data as [| | | | |l|d]; try (left; reflexivity).
  destruct (PyVal.lookup "text" d) as [v|] eqn:Hd.
  - destruct v as [| | | |s| |];
      try (left; unfold message, logger, lift, bind; cbn [PyVal.get];
           rewrite Hd; reflexivity).
    destruct (String.eqb_spec (PyStr.strip s) "") as [Hs|Hs].
    + left. rewrite message_blank; [reflexivity|]. right. eauto.
    + destruct (process_message_spec (PyStr.strip s)) as (rt & Ho & _ & Hp & _).
      destruct (message_routed sid d s rt Hd Hs Ho) as (_ & Hposts & _).
      rewrite Hposts. destruct Hp; eauto.
  - left. rewrite message_blank; [reflexivity|]. now left.
Qed.

(** A body that is falsy, or holds no [choices], or holds falsy [choices],
    is answered with the uninterpretable-response apology. *)
Lemma no_choices_uninterpretable um resp body :
  PyVal.lookup (PyStr.lower um) canned_responses = None ->
  credential_configured = true ->
  post_outcome (openai_request um) = Returns resp ->
  raise_for_status resp = Returns tt ->
  json resp = Returns body ->
  has_choices body = Returns false ->
  outcome (process_message um) = Returns (PStr msg_uninterpretable).
Proof.
  intros Hc Hk H1 H2 H3 H4. apply process_message_returned; auto.
  now apply call_openai_no_choices with resp body.
Qed.

(** ** The claims *)

(** C1, as amended. For every inbound message whose text is not empty once
    trimmed, the handler does not raise and emits at most one reply; a reply
    is a non-empty str, sent as event [message] from [Butler] to the room of
    the sending session only. No reply at all is emitted only when the
    completion call came back with a content that is empty once trimmed. *)
Theorem C1_at_most_one_reply_to_sender sid d s :
  PyVal.lookup "text" d = Some (PStr s) ->
  PyStr.strip s <> "" ->
  outcome (message sid (PDict d)) = Returns tt /\
  (emits (trace (message sid (PDict d))) = [] \/
   exists text, text <> "" /\
     emits (trace (message sid (PDict d))) = [reply_to sid text]) /\
  (emits (trace (message sid (PDict d))) = [] ->
   exists c, completion (PyStr.strip s) c /\ PyStr.strip c = "").
Proof.
  intros Hd Hs.
  destruct (process_message_spec (PyStr.strip s)) as (rt & Ho & _ & _ & Hblank).
  destruct (message_reply sid d s rt Hd Hs Ho) as (Hout & Hemits).
  split; [exact Hout|]. rewrite Hemits.
  destruct (String.eqb_spec rt "") as [->|Hne].
  - split; [now left|]. intros _. now apply Hblank.
  - split; [right; eauto|]. discriminate.
Qed.

(** C2. When the trimmed, lowercased text is a key of [canned_responses],
    [response_text] is the table's reply, no request is posted, and that
    reply is what the session receives, whatever [OPENAI_API_KEY] is.
    [Hello] and [HELLO] both get the greeting. *)
Theorem C2_canned_reply_without_call sid d s v :
  PyVal.lookup "text" d = Some (PStr s) ->
  PyVal.lookup (PyStr.lower (PyStr.strip s)) canned_responses = Some v ->
  outcome (process_message (PyStr.strip s)) = Returns (PStr v) /\
  posts (trace (message sid (PDict d))) = [] /\
  emits (trace (message sid (PDict d))) = [reply_to sid v] /\
  emits (trace (message sid (PDict [("text", PStr "Hello")]))) =
    [reply_to sid "Greetings. How may I be of service?"] /\
  emits (trace (message sid (PDict [("text", PStr "HELLO")]))) =
    [reply_to sid "Greetings. How may I be of service?"].
Proof.
  assert (Hgen : forall d s v,
    PyVal.lookup "text" d = Some (PStr s) ->
    PyVal.lookup (PyStr.lower (PyStr.strip s)) canned_responses = Some v ->
    outcome (process_message (PyStr.strip s)) = Returns (PStr v) /\
    posts (trace (message sid (PDict d))) = [] /\
    emits (trace (message sid (PDict d))) = [reply_to sid v]).
  { clear. intros d s v Hd Hc.
    assert (Ho : outcome (process_message (PyStr.strip s)) = Returns (PStr v))
      by (unfold process_message; now rewrite Hc).
    assert (Hp : posts (trace (process_message (PyStr.strip s))) = [])
      by (unfold process_message; now rewrite Hc).
    pose proof (canned_hit_nonempty _ _ Hc) as Hs.
    pose proof (canned_reply_nonempty _ _ Hc) as Hv.
    destruct (message_routed sid d s v Hd Hs Ho) as (_ & Hposts & _).
    destruct (message_reply_nonempty sid d s v Hd Hs Ho Hv) as (_ & He).
    rewrite Hposts, Hp. auto. }
  intros Hd Hc.
  destruct (Hgen d s v Hd Hc) as (H1 & H2 & H3).
  repeat split; auto.
  - now apply (Hgen [("text", PStr "Hello")] "Hello").
  - now apply (Hgen [("text", PStr "HELLO")] "HELLO").
Qed.

(** C3. For a text that is not empty once trimmed and misses the table,
    with a credential configured, when the call comes back with a 2xx
    status and a well-formed body, [response_text] is the first choice's
    content, trimmed, and this is the reply sent (nothing is sent when the
    trimmed content is empty). *)
Theorem C3_completion_content_trimmed sid d s resp body c :
  PyVal.lookup "text" d = Some (PStr s) ->
  PyStr.strip s <> "" ->
  PyVal.lookup (PyStr.lower (PyStr.strip s)) canned_responses = None ->
  credential_configured = true ->
  post_outcome (openai_request (PyStr.strip s)) = Returns resp ->
  (200 <= status_code resp < 300)%Z ->
  json resp = Returns body ->
  well_formed_body body c ->
  outcome (process_message (PyStr.strip s)) = Returns (PStr (PyStr.strip c)) /\
  outcome (message sid (PDict d)) = Returns tt /\
  emits (trace (message sid (PDict d))) =
    if PyStr.strip c =? "" then [] else [reply_to sid (PyStr.strip c)].
Proof.
  intros Hd Hs Hc Hk Hpost Hstatus Hjson Hbody.
  destruct (well_formed_body_choices body c Hbody) as (Hch & Hcont).
  assert (Ho : outcome (process_message (PyStr.strip s)) =
               Returns (PStr (PyStr.strip c))).
  { apply process_message_returned; auto.
    eapply call_openai_content; eauto using raise_for_status_ok. }
  split; [exact Ho|]. now apply (message_reply sid d s).
Qed.

(** C5, as amended. For a text that is not empty once trimmed and misses
    the table, with a credential configured, when the call fails at the
    transport level (a [RequestException] other than a [Timeout]) or comes
    back with a 4xx or 5xx status, the reply is the contact-issue apology
    followed by the text of the error, as it is: the text of the raw error
    does reach the client. The error itself is not raised to the caller. *)
Theorem C5_contact_issue_apology sid d s e :
  PyVal.lookup "text" d = Some (PStr s) ->
  PyStr.strip s <> "" ->
  PyVal.lookup (PyStr.lower (PyStr.strip s)) canned_responses = None ->
  credential_configured = true ->
  contact_failure (PyStr.strip s) e ->
  outcome (process_message (PyStr.strip s)) =
    Returns (PStr (msg_contact_issue ++ exc_str e)) /\
  outcome (message sid (PDict d)) = Returns tt /\
  emits (trace (message sid (PDict d))) =
    [reply_to sid (msg_contact_issue ++ exc_str e)].
Proof.
  intros Hd Hs Hc Hk Hfail.
  assert (H : outcome (call_openai (PyStr.strip s)) = Raises e /\
              isinstance e RequestException = true /\
              isinstance e Timeout = false).
  { destruct Hfail as [(Hp & Hr & Ht) | (resp & Hp & Hst & Hr)].
    - split; [now apply call_openai_post_raises | auto].
    - split; [now apply call_openai_status_raises with resp|].
      destruct (raise_for_status_error resp Hst) as (diag & Hdiag).
      rewrite Hdiag in Hr. injection Hr as <-. split; reflexivity. }
  destruct H as (Hraise & Hr & Ht).
  assert (Ho : outcome (process_message (PyStr.strip s)) =
               Returns (PStr (msg_contact_issue ++ exc_str e))).
  { rewrite (process_message_raised _ e Hc Hk Hraise).
    unfold openai_handlers. now rewrite Ht, Hr. }
  split; [exact Ho|].
  apply (message_reply_nonempty sid d s); auto using contact_issue_nonempty.
Qed.

(** C6. For a text that is not empty once trimmed and misses the table,
    when [OPENAI_API_KEY] is unset or empty, the reply is the
    not-configured apology, no request is posted, and one CRITICAL line is
    logged. *)
Theorem C6_not_configured_apology sid d s :
  PyVal.lookup "text" d = Some (PStr s) ->
  PyStr.strip s <> "" ->
  PyVal.lookup (PyStr.lower (PyStr.strip s)) canned_responses = None ->
  credential_configured = false ->
  outcome (process_message (PyStr.strip s)) = Returns (PStr msg_not_configured) /\
  posts (trace (message sid (PDict d))) = [] /\
  emits (trace (message sid (PDict d))) = [reply_to sid msg_not_configured] /\
  filter is_critical (trace (message sid (PDict d))) =
    [Log CRITICAL [Lit "OPENAI_API_KEY is not set. Cannot call OpenAI API."] None].
Proof.
  intros Hd Hs Hc Hk. unfold credential_configured in Hk.
  apply truthy_PStr in Hs.
  unfold message, process_message, logger, lift. cbn [PyVal.get bind].
  rewrite Hd. cbn [PyVal.strip bind]. rewrite Hs, Hc, Hk. cbn [negb].
  split; [reflexivity|].
  unfold send_response, try_except, sio_emit, bind, posts, emits.
  cbn [PyVal.truthy]. cbn.
  destruct (emit_outcome _ _ _) as [[]|e]; cbn; auto.
Qed.

(** C7. For a text that is not empty once trimmed and misses the table,
    with a credential configured, when [requests.post] raises a [Timeout]
    (a connect or a read timeout included), the reply is the took-too-long
    apology and the handler returns without raising. *)
Theorem C7_timeout_apology sid d s e :
  PyVal.lookup "text" d = Some (PStr s) ->
  PyStr.strip s <> "" ->
  PyVal.lookup (PyStr.lower (PyStr.strip s)) canned_responses = None ->
  credential_configured = true ->
  post_outcome (openai_request (PyStr.strip s)) = Raises e ->
  isinstance e Timeout = true ->
  outcome (process_message (PyStr.strip s)) = Returns (PStr msg_timeout) /\
  outcome (message sid (PDict d)) = Returns tt /\
  emits (trace (message sid (PDict d))) = [reply_to sid msg_timeout].
Proof.
  intros Hd Hs Hc Hk Hp Ht.
  assert (Ho : outcome (process_message (PyStr.strip s)) =
               Returns (PStr msg_timeout)).
  { rewrite (process_message_raised _ e Hc Hk (call_openai_post_raises _ _ Hp)).
    unfold openai_handlers. now rewrite Ht. }
  split; [exact Ho|].
  apply (message_reply_nonempty sid d s); auto. discriminate.
Qed.

(** C8. For a payload with no [text] field, or whose text is empty once
    trimmed, the handler logs the message and a warning and stops: nothing
    is emitted, nothing is posted, the message is not processed. *)
Theorem C8_blank_text_ignored sid d :
  blank_text d ->
  trace (message sid (PDict d)) =
    [Log INFO [Lit "Message from "; Fstr sid; Lit ": "; Fval (PDict d)] None;
     Log WARNING [Lit "Received empty message from "; Fstr sid] None] /\
  outcome (message sid (PDict d)) = Returns tt /\
  emits (trace (message sid (PDict d))) = [] /\
  posts (trace (message sid (PDict d))) = [].
Proof.
  intros H. rewrite (message_blank sid d H). now cbn.
Qed.

(** C10. Every key of [canned_responses] is its own trimmed, lowercased
    form, and looking that form up gives back the entry's reply. *)
Theorem C10_canned_keys_normalized :
  Forall (fun kv =>
            PyStr.lower (PyStr.strip (fst kv)) = fst kv /\
            PyVal.lookup (PyStr.lower (PyStr.strip (fst kv))) canned_responses
              = Some (snd kv))
         canned_responses.
Proof.
  unfold canned_responses. repeat constructor.
Qed.

End Server.

(** ** The claims on concrete inputs *)

(** C1 at work: no credential, a greeting that misses the table, and a
    session whose delivery fails. *)
Lemma C1_witness :
  outcome (message None test_url (post_raises (mk_exc ConnectionError "refused"))
             emit_fails "sid1" (payload " Hi there ")) = Returns tt /\
  (emits (trace (message None test_url (post_raises (mk_exc ConnectionError "refused"))
                   emit_fails "sid1" (payload " Hi there "))) = [] \/
   exists text, text <> "" /\
     emits (trace (message None test_url (post_raises (mk_exc ConnectionError "refused"))
                     emit_fails "sid1" (payload " Hi there "))) = [reply_to "sid1" text]) /\
  (emits (trace (message None test_url (post_raises (mk_exc ConnectionError "refused"))
                   emit_fails "sid1" (payload " Hi there "))) = [] ->
   exists c, completion None test_url (post_raises (mk_exc ConnectionError "refused"))
               (PyStr.strip " Hi there ") c /\ PyStr.strip c = "").
Proof.
  apply (C1_at_most_one_reply_to_sender None test_url
           (post_raises (mk_exc ConnectionError "refused")) emit_fails
           "sid1" [("text", PStr " Hi there ")] " Hi there ").
  - reflexivity.
  - discriminate.
Defined.

(** C1, as stated, fails: the text is not blank, the call succeeds, the
    content of the first choice is blank, and no reply is emitted. *)
Lemma C1_blank_completion_gets_no_reply :
  PyStr.strip "What's the weather?" <> "" /\
  outcome (message (Some "sk-test") test_url
             (post_returns 200 "OK" (body_with_content "   ")) emit_ok
             "sid1" (payload "What's the weather?")) = Returns tt /\
  emits (trace (message (Some "sk-test") test_url
                  (post_returns 200 "OK" (body_with_content "   ")) emit_ok
                  "sid1" (payload "What's the weather?"))) = [] /\
  List.length (emits (trace (message (Some "sk-test") test_url
                  (post_returns 200 "OK" (body_with_content "   ")) emit_ok
                  "sid1" (payload "What's the weather?")))) <> 1.
Proof.
  repeat split; try reflexivity; discriminate.
Qed.

(** C2 at work: [Thank You] with blanks around, and the two spellings of
    [hello], without a credential. *)
Lemma C2_witness :
  outcome (process_message None test_url (post_raises (mk_exc ConnectionError "refused"))
             (PyStr.strip "  Thank You ")) =
    Returns (PStr "You are most welcome, sir.") /\
  posts (trace (message None test_url (post_raises (mk_exc ConnectionError "refused"))
                  emit_ok "sid1" (payload "  Thank You "))) = [] /\
  emits (trace (message None test_url (post_raises (mk_exc ConnectionError "refused"))
                  emit_ok "sid1" (payload "  Thank You "))) =
    [reply_to "sid1" "You are most welcome, sir."] /\
  emits (trace (message None test_url (post_raises (mk_exc ConnectionError "refused"))
                  emit_ok "sid1" (payload "Hello"))) =
    [reply_to "sid1" "Greetings. How may I be of service?"] /\
  emits (trace (message None test_url (post_raises (mk_exc ConnectionError "refused"))
                  emit_ok "sid1" (payload "HELLO"))) =
    [reply_to "sid1" "Greetings. How may I be of service?"].
Proof.
  apply (C2_canned_reply_without_call None test_url
           (post_raises (mk_exc ConnectionError "refused")) emit_ok
           "sid1" [("text", PStr "  Thank You ")] "  Thank You "
           "You are most welcome, sir.");
    reflexivity.
Defined.

(** C3 at work: the weather question, answered [ Sunny today. ]. *)
Lemma C3_witness :
  outcome (process_message (Some "sk-test") test_url
             (post_returns 200 "OK" (body_with_content " Sunny today. "))
             (PyStr.strip "What's the weather?")) =
    Returns (PStr "Sunny today.") /\
  outcome (message (Some "sk-test") test_url
             (post_returns 200 "OK" (body_with_content " Sunny today. ")) emit_ok
             "sid1" (payload "What's the weather?")) = Returns tt /\
  emits (trace (message (Some "sk-test") test_url
                  (post_returns 200 "OK" (body_with_content " Sunny today. ")) emit_ok
                  "sid1" (payload "What's the weather?"))) =
    [reply_to "sid1" "Sunny today."].
Proof.
  apply (C3_completion_content_trimmed (Some "sk-test") test_url
           (post_returns 200 "OK" (body_with_content " Sunny today. ")) emit_ok
           "sid1" [("text", PStr "What's the weather?")] "What's the weather?"
           (mk_Response 200 "OK" test_url
              (Returns (body_with_content " Sunny today. ")))
           (body_with_content " Sunny today. ") " Sunny today. ").
  - reflexivity.
  - discriminate.
  - reflexivity.
  - reflexivity.
  - reflexivity.
  - cbn. lia.
  - reflexivity.
  - unfold well_formed_body, body_with_content.
    do 4 eexists. repeat split; reflexivity.
Defined.

(** C4 fails on the code. The call succeeds with a body whose [choices]
    holds one object without [message]: the condition of line 139 holds,
    the subscript of line 140 raises [KeyError], and the reply is the
    internal-error apology, not the uninterpretable-response one. *)
Theorem C4_first_choice_without_message_is_internal_error sid :
  has_choices body_without_message = Returns true /\
  first_choice_content body_without_message =
    Raises (mk_exc KeyError "'message'") /\
  emits (trace (message (Some "sk-test") test_url
                  (post_returns 200 "OK" body_without_message) emit_ok
                  sid (payload "What's the weather?"))) =
    [reply_to sid msg_internal_error] /\
  msg_internal_error <> msg_uninterpretable.
Proof.
  repeat split; try reflexivity. discriminate.
Qed.

(** C5 at work: the connection is refused. *)
Lemma C5_witness :
  outcome (process_message (Some "sk-test") test_url
             (post_raises (mk_exc ConnectionError "Connection refused"))
             (PyStr.strip "What's the weather?")) =
    Returns (PStr (msg_contact_issue ++ "Connection refused")) /\
  outcome (message (Some "sk-test") test_url
             (post_raises (mk_exc ConnectionError "Connection refused")) emit_ok
             "sid1" (payload "What's the weather?")) = Returns tt /\
  emits (trace (message (Some "sk-test") test_url
                  (post_raises (mk_exc ConnectionError "Connection refused")) emit_ok
                  "sid1" (payload "What's the weather?"))) =
    [reply_to "sid1" (msg_contact_issue ++ "Connection refused")].
Proof.
  apply (C5_contact_issue_apology (Some "sk-test") test_url
           (post_raises (mk_exc ConnectionError "Connection refused")) emit_ok
           "sid1" [("text", PStr "What's the weather?")] "What's the weather?"
           (mk_exc ConnectionError "Connection refused")).
  - reflexivity.
  - discriminate.
  - reflexivity.
  - reflexivity.
  - left. repeat split; reflexivity.
Defined.

(** C5, as stated, fails on three counts. A response with status 300,
    which is not a 2xx status, and a well-formed body is answered with the
    content of the body. A connect timeout, which is a [ConnectionError],
    is answered with the took-too-long apology. And when the connection is
    refused, the text of the raw error is part of the reply the client
    receives. *)
Lemma C5_three_ways_off :
  ((300 <? 200)%Z || (300 <=? 300)%Z = true /\
   raise_for_status (mk_Response 300 "Multiple Choices" test_url
                       (Returns (body_with_content "Certainly."))) = Returns tt /\
   emits (trace (message (Some "sk-test") test_url
                   (post_returns 300 "Multiple Choices" (body_with_content "Certainly."))
                   emit_ok "sid1" (payload "What's the weather?"))) =
     [reply_to "sid1" "Certainly."] /\
   String.prefix msg_contact_issue "Certainly." = false) /\
  (isinstance (mk_exc ConnectTimeout "Connection to api.openai.com timed out")
     ConnectionError = true /\
   emits (trace (message (Some "sk-test") test_url
                   (post_raises (mk_exc ConnectTimeout
                                   "Connection to api.openai.com timed out"))
                   emit_ok "sid1" (payload "What's the weather?"))) =
     [reply_to "sid1" msg_timeout] /\
   String.prefix msg_contact_issue msg_timeout = false) /\
  (emits (trace (message (Some "sk-test") test_url
                   (post_raises (mk_exc ConnectionError raw_connection_error))
                   emit_ok "sid1" (payload "What's the weather?"))) =
     [reply_to "sid1" (msg_contact_issue ++ raw_connection_error)] /\
   PyStr.contains raw_connection_error
     (msg_contact_issue ++ raw_connection_error) = true).
Proof.
  repeat split; reflexivity.
Qed.

(** C6 at work: [OPENAI_API_KEY] is unset. *)
Lemma C6_witness :
  outcome (process_message None test_url (post_returns 200 "OK" (body_with_content "Yes."))
             (PyStr.strip "What's the weather?")) =
    Returns (PStr msg_not_configured) /\
  posts (trace (message None test_url (post_returns 200 "OK" (body_with_content "Yes."))
                  emit_ok "sid1" (payload "What's the weather?"))) = [] /\
  emits (trace (message None test_url (post_returns 200 "OK" (body_with_content "Yes."))
                  emit_ok "sid1" (payload "What's the weather?"))) =
    [reply_to "sid1" msg_not_configured] /\
  filter is_critical
    (trace (message None test_url (post_returns 200 "OK" (body_with_content "Yes."))
              emit_ok "sid1" (payload "What's the weather?"))) =
    [Log CRITICAL [Lit "OPENAI_API_KEY is not set. Cannot call OpenAI API."] None].
Proof.
  apply (C6_not_configured_apology None test_url
           (post_returns 200 "OK" (body_with_content "Yes.")) emit_ok
           "sid1" [("text", PStr "What's the weather?")] "What's the weather?").
  - reflexivity.
  - discriminate.
  - reflexivity.
  - reflexivity.
Defined.

(** C7 at work: the read times out. *)
Lemma C7_witness :
  outcome (process_message (Some "sk-test") test_url
             (post_raises (mk_exc ReadTimeout "Read timed out. (read timeout=20)"))
             (PyStr.strip "What's the weather?")) =
    Returns (PStr msg_timeout) /\
  outcome (message (Some "sk-test") test_url
             (post_raises (mk_exc ReadTimeout "Read timed out. (read timeout=20)"))
             emit_ok "sid1" (payload "What's the weather?")) = Returns tt /\
  emits (trace (message (Some "sk-test") test_url
                  (post_raises (mk_exc ReadTimeout "Read timed out. (read timeout=20)"))
                  emit_ok "sid1" (payload "What's the weather?"))) =
    [reply_to "sid1" msg_timeout].
Proof.
  apply (C7_timeout_apology (Some "sk-test") test_url
           (post_raises (mk_exc ReadTimeout "Read timed out. (read timeout=20)"))
           emit_ok
           "sid1" [("text", PStr "What's the weather?")] "What's the weather?"
           (mk_exc ReadTimeout "Read timed out. (read timeout=20)")).
  - reflexivity.
  - discriminate.
  - reflexivity.
  - reflexivity.
  - reflexivity.
  - reflexivity.
Defined.

(** C8 at work: a text of three blanks. *)
Lemma C8_witness :
  trace (message (Some "sk-test") test_url
           (post_returns 200 "OK" (body_with_content "Yes.")) emit_ok
           "sid1" (payload "   ")) =
    [Log INFO [Lit "Message from "; Fstr "sid1"; Lit ": "; Fval (payload "   ")] None;
     Log WARNING [Lit "Received empty message from "; Fstr "sid1"] None] /\
  outcome (message (Some "sk-test") test_url
             (post_returns 200 "OK" (body_with_content "Yes.")) emit_ok
             "sid1" (payload "   ")) = Returns tt /\
  emits (trace (message (Some "sk-test") test_url
                  (post_returns 200 "OK" (body_with_content "Yes.")) emit_ok
                  "sid1" (payload "   "))) = [] /\
  posts (trace (message (Some "sk-test") test_url
                  (post_returns 200 "OK" (body_with_content "Yes.")) emit_ok
                  "sid1" (payload "   "))) = [].
Proof.
  apply (C8_blank_text_ignored (Some "sk-test") test_url
           (post_returns 200 "OK" (body_with_content "Yes.")) emit_ok
           "sid1" [("text", PStr "   ")]).
  right. exists "   ". split; reflexivity.
Defined.

(** * Further properties of the module *)

(** ** Trimming *)

(** Every code point of [s] is whitespace. *)
Fixpoint all_space (s : string) : bool :=
  match s with
  | EmptyString => true
  | String c s' => PyStr.isspace c && all_space s'
  end.

(** [s.split(sep)] for a separator of one code point: a piece for every
    occurrence of the separator, plus one; empty pieces are kept. *)
Fixpoint split (sep : ascii) (s : string) : list string :=
  match s with
  | EmptyString => [EmptyString]
  | String c s' =>
      if Ascii.eqb c sep then EmptyString :: split sep s'
      else match split sep s' with
           | [] => [String c EmptyString]
           | piece :: pieces => String c piece :: pieces
           end
  end.

(** [sep.join(pieces)]. *)
Fixpoint join (sep : string) (pieces : list string) : string :=
  match pieces with
  | [] => EmptyString
  | [piece] => piece
  | piece :: pieces' => piece ++ sep ++ join sep pieces'
  end.

Fixpoint count_char (c : ascii) (s : string) : nat :=
  match s with
  | EmptyString => 0
  | String a s' => (if Ascii.eqb a c then 1 else 0) + count_char c s'
  end.

(** Line 18: [os.environ.get('ALLOWED_ORIGINS', '*').split(',')], from the
    value of the environment variable, [None] when it is unset. *)
Definition ALLOWED_ORIGINS (env : option string) : list string :=
  split "," (match env with Some v => v | None => "*" end).

Lemma all_space_app p q :
  all_space (p ++ q) = all_space p && all_space q.
Proof.
  induction p as [|c p IH]; cbn; [reflexivity|].
  now rewrite IH, andb_assoc.
Qed.

Lemma lstrip_all_space s : all_space s = true -> PyStr.lstrip s = "".
Proof.
  induction s as [|c s IH]; cbn; [reflexivity|].
  intros H. apply andb_prop in H as [Hc Hs]. rewrite Hc. auto.
Qed.

Lemma lstrip_pad p s : all_space p = true -> PyStr.lstrip (p ++ s) = PyStr.lstrip s.
Proof.
  induction p as [|c p IH]; cbn; [reflexivity|].
  intros H. apply andb_prop in H as [Hc Hp]. rewrite Hc. auto.
Qed.

Lemma all_space_lstrip s : all_space (PyStr.lstrip s) = all_space s.
Proof.
  induction s as [|c s IH]; cbn; [reflexivity|].
  destruct (PyStr.isspace c) eqn:Hc; cbn; [exact IH | now rewrite Hc].
Qed.

Lemma rstrip_empty_iff s : PyStr.rstrip s = "" <-> all_space s = true.
Proof.
  induction s as [|c s IH]; cbn; [tauto|].
  destruct (PyStr.rstrip s) as [|a r].
  - destruct (PyStr.isspace c); cbn.
    + tauto.
    + split; discriminate.
  - split; [discriminate|].
    intros H. apply andb_prop in H as [_ Hs]. apply IH in Hs. discriminate.
Qed.

Lemma rstrip_pad s q : all_space q = true -> PyStr.rstrip (s ++ q) = PyStr.rstrip s.
Proof.
  intros Hq. induction s as [|c s IH]; cbn.
  - now apply rstrip_empty_iff.
  - now rewrite IH.
Qed.

Lemma lstrip_app_nonblank s q :
  PyStr.lstrip s <> "" -> PyStr.lstrip (s ++ q) = PyStr.lstrip s ++ q.
Proof.
  induction s as [|c s IH]; cbn; [congruence|].
  destruct (PyStr.isspace c); auto.
Qed.

Lemma lstrip_fixed c r : PyStr.isspace c = false ->
  PyStr.lstrip (String c r) = String c r.
Proof. intros H. cbn. now rewrite H. Qed.

Lemma rstrip_head c r :
  PyStr.isspace c = false ->
  exists r', PyStr.rstrip (String c r) = String c r'.
Proof.
  intros H. cbn. destruct (PyStr.rstrip r); [rewrite H|]; eauto.
Qed.

Lemma rstrip_cons c s :
  PyStr.rstrip (String c s) =
    match PyStr.rstrip s with
    | EmptyString => if PyStr.isspace c then EmptyString else String c EmptyString
    | r => String c r
    end.
Proof. reflexivity. Qed.

Lemma rstrip_idempotent s : PyStr.rstrip (PyStr.rstrip s) = PyStr.rstrip s.
Proof.
  induction s as [|c s IH]; [reflexivity|].
  rewrite rstrip_cons.
  destruct (PyStr.rstrip s) as [|a r] eqn:Hr.
  - destruct (PyStr.isspace c) eqn:Hc; cbn; [reflexivity | now rewrite Hc].
  - rewrite rstrip_cons, IH. reflexivity.
Qed.

Lemma rstrip_last s r c :
  PyStr.rstrip s = r ++ String c "" -> PyStr.isspace c = false.
Proof.
  revert r. induction s as [|a s IH]; intros r; cbn.
  - destruct r; discriminate.
  - destruct (PyStr.rstrip s) as [|b t] eqn:Hs.
    + destruct (PyStr.isspace a) eqn:Ha.
      * destruct r; discriminate.
      * destruct r as [|x r]; cbn.
        -- intros [= <-]. exact Ha.
        -- intros [= _ H]. destruct r; discriminate.
    + destruct r as [|x r]; cbn.
      * discriminate.
      * intros [= _ H]. now apply (IH r).
Qed.

(** ** Connection handlers, the set of handlers, and startup *)

(** Lines 70-73: [connect(sid, environ)] logs and returns [None], which
    accepts the connection; the welcome message is commented out. *)
Definition connect (sid : string) (environ : pyval) : M unit :=
  logger INFO [Lit "Client connected: "; Fstr sid].

(** Lines 81-84: [disconnect(sid)]. *)
Definition disconnect (sid : string) : M unit :=
  logger INFO [Lit "Client disconnected: "; Fstr sid].

(** An event delivered to one of the three handlers registered with
    [@sio.event]. *)
Inductive inbound : Type :=
| Connect (sid : string) (environ : pyval)
| Disconnect (sid : string)
| Message (sid : string) (data : pyval).

(** How the outside world answers the library calls during one handler
    invocation. *)
Record world : Type := mk_world {
  w_post : request -> result Response;
  w_emit : string -> pyval -> option string -> result unit
}.

Definition handle (key : option string) (url : string)
  (x : world * inbound) : M unit :=
  match snd x with
  | Connect sid environ => connect sid environ
  | Disconnect sid => disconnect sid
  | Message sid data => message key url (w_post (fst x)) (w_emit (fst x)) sid data
  end.

(** The events performed over a sequence of handler invocations. *)
Definition run (key : option string) (url : string)
  (l : list (world * inbound)) : list event :=
  flat_map (fun x => trace (handle key url x)) l.

(** The session an [Emit] is addressed to; [None] is a broadcast. *)
Definition emit_room (ev : event) : option string :=
  match ev with Emit _ _ room => room | _ => None end.

Definition is_emit_to (sid : string) (ev : event) : bool :=
  match ev with
  | Emit _ _ (Some room) => room =? sid
  | _ => false
  end.

(** The inbound event is a message of session [sid]. *)
Definition is_message_from (sid : string) (x : world * inbound) : bool :=
  match snd x with
  | Message sid' _ => sid' =? sid
  | _ => false
  end.

(** The inbound event is a message, from any session. *)
Definition is_message (x : world * inbound) : bool :=
  match snd x with
  | Message _ _ => true
  | _ => false
  end.

(** The value of the environment variable [ALLOWED_ORIGINS], with its
    default. *)
Definition origins_value (env : option string) : string :=
  match env with Some v => v | None => "*" end.

(** A response whose body cannot be decoded: [.json()] raises [e]. *)
Definition post_undecodable (e : exception) (r : request) : result Response :=
  Returns (mk_Response 200 "OK" (req_url r) (Raises e)).

(** A success body whose first choice has [null] for content. *)
Definition body_with_null_content : pyval :=
  PDict [("choices", PList [PDict [("message", PDict [("content", PNone)])]])].

(** A body that reports an error and holds no [choices]. *)
Definition body_with_error : pyval :=
  PDict [("error", PDict [("message", PStr "The model is overloaded.")])].

(** The text carried by a reply. *)
Definition emit_text (ev : event) : option pyval :=
  match ev with
  | Emit _ (PDict d) _ => PyVal.lookup "text" d
  | _ => None
  end.

(** For a payload made of JSON values: the [AttributeError] line 96 raises
    when the payload is not a dict ([.get] is missing) or when its [text]
    is [None], a bool, a number, a list or a dict ([.strip] is missing);
    [None] when the text is a str or is absent. A text sent as a binary
    attachment (a [bytes] object, which has [.strip]) is outside [pyval]. *)
Definition json_payload_error (data : pyval) : option exception :=
  match data with
  | PDict d =>
      match PyVal.lookup "text" d with
      | None | Some (PStr _) => None
      | Some v =>
          Some (mk_exc AttributeError
                  ("'" ++ PyVal.type_name v ++ "' object has no attribute 'strip'"))
      end
  | v => Some (mk_exc AttributeError
                 ("'" ++ PyVal.type_name v ++ "' object has no attribute 'get'"))
  end.

Definition is_str_value (v : pyval) : bool :=
  match v with PStr _ => true | _ => false end.

(** The errors raised by the handler's own expressions are builtin ones:
    no clause for [Timeout] or [RequestException] takes them. *)
Definition builtin_error (e : exception) : Prop :=
  isinstance e Timeout = false /\ isinstance e RequestException = false.

(** The body is falsy, or is a dict without the key [choices] or with
    falsy [choices], or is a list without the element ['choices'], or a str
    without the substring. *)
Definition lacks_choices (body : pyval) : bool :=
  negb (PyVal.truthy body) ||
  match body with
  | PDict d =>
      match PyVal.lookup "choices" d with
      | None => true
      | Some v => negb (PyVal.truthy v)
      end
  | PList l => negb (existsb (PyVal.is_str "choices") l)
  | PStr t => negb (PyStr.contains "choices" t)
  | _ => false
  end.

Definition is_canned (user_message : string) : bool :=
  match PyVal.lookup (PyStr.lower user_message) canned_responses with
  | Some _ => true
  | None => false
  end.

Definition newline : string := String (Ascii.ascii_of_nat 10) EmptyString.

(** What the [__main__] block does: log lines, lines printed, the call
    [eventlet.listen((host, port))] that binds, and the call
    [eventlet.wsgi.server(sock, app)] that serves. *)
Inductive main_event : Type :=
| Logged (lvl : level) (msg : list fpart) (exc_info : option exception)
| Printed (line : string)
| Listen (host : string) (port : Z)
| Serve.

(** Lines 168-187, the [__main__] block. In line 184 the argument
    [eventlet.listen((SERVER_HOST, SERVER_PORT))] is evaluated first, and
    [eventlet.wsgi.server] is called only when it returned a socket;
    [listen_outcome] and [serve_outcome] are how the two calls end. An
    error of either is taken by the [except] of line 185. *)
Definition main (key : option string) (SERVER_HOST : string) (SERVER_PORT : Z)
  (listen_outcome serve_outcome : result unit)
  : list main_event * result unit :=
  let warning :=
    if negb (credential_configured key) then
      [ Logged CRITICAL
          [Lit "OPENAI_API_KEY environment variable is not set. The server will run, but OpenAI calls will fail."]
          None;
        Printed (newline ++ "!!! CRITICAL WARNING: OPENAI_API_KEY is not set. OpenAI calls will not work. Set this environment variable for production. !!!" ++ newline) ]
    else [] in
  let address :=
    "Starting SocketIO server on http://" ++ SERVER_HOST ++ ":"
      ++ PyStr.of_Z SERVER_PORT in
  let starting :=
    [ Logged INFO
        [Lit "Starting SocketIO server on http://"; Fstr SERVER_HOST; Lit ":";
         Fstr (PyStr.of_Z SERVER_PORT)] None;
      Printed address ] in
  let failed (e : exception) :=
    [ Logged CRITICAL [Lit "Failed to start server: "; Fstr (exc_str e)] (Some e);
      Printed ("Error: Failed to start server: " ++ exc_str e) ] in
  let attempt :=
    match listen_outcome with
    | Raises e => Listen SERVER_HOST SERVER_PORT :: failed e
    | Returns _ =>
        match serve_outcome with
        | Returns _ => [Listen SERVER_HOST SERVER_PORT; Serve]
        | Raises e => Listen SERVER_HOST SERVER_PORT :: Serve :: failed e
        end
    end in
  ((warning ++ starting ++ attempt)%list, Returns tt).

Definition is_listen (ev : main_event) : bool :=
  match ev with Listen _ _ => true | _ => false end.

Definition is_serve (ev : main_event) : bool :=
  match ev with Serve => true | _ => false end.

(** The error that ends the startup, if any: of the bind, or else of the
    serving. *)
Definition startup_error (listen_outcome serve_outcome : result unit)
  : option exception :=
  match listen_outcome, serve_outcome with
  | Raises e, _ => Some e
  | Returns _, Raises e => Some e
  | Returns _, Returns _ => None
  end.

Definition is_key_warning (ev : main_event) : bool :=
  match ev with
  | Logged CRITICAL [Lit "OPENAI_API_KEY environment variable is not set. The server will run, but OpenAI calls will fail."] None => true
  | _ => false
  end.

(** ** Properties of the handlers *)

Section Handlers.

Variable key : option string.
Variable url : string.
Variable post : request -> result Response.
Variable emit : string -> pyval -> option string -> result unit.

Local Abbreviation message_ := (message key url post emit).
Local Abbreviation process_ := (process_message key url post).
Local Abbreviation call_ := (call_openai key url post).
Local Abbreviation request_ := (openai_request key url).
Local Abbreviation send_ := (send_response emit).

Lemma process_message_first_log um :
  exists msg rest, trace (process_ um) = Log INFO msg None :: rest.
Proof.
  unfold process_message.
  destruct (PyVal.lookup _ canned_responses); [cbn; eauto|].
  unfold logger, bind.
  match goal with |- context [let (_, _) := ?m in _] => destruct m end.
  cbn. eauto.
Qed.

Lemma message_trace_routed sid d s rt :
  PyVal.lookup "text" d = Some (PStr s) ->
  PyStr.strip s <> "" ->
  outcome (process_ (PyStr.strip s)) = Returns (PStr rt) ->
  trace (message_ sid (PDict d)) =
    Log INFO [Lit "Message from "; Fstr sid; Lit ": "; Fval (PDict d)] None
      :: (trace (process_ (PyStr.strip s)) ++ trace (send_ sid (PStr rt)))%list.
Proof.
  intros Hd Hs Hrt.
  unfold message, logger, lift, bind. cbn [PyVal.get]. rewrite Hd.
  cbn [PyVal.strip].
  apply truthy_PStr in Hs. rewrite Hs. cbn [negb].
  destruct (process_message _ _ _ _) as [t r].
  unfold trace, outcome in *. cbn [fst snd] in *. subst r.
  now destruct (send_response _ _ _).
Qed.

Lemma strip_empty_iff s : PyStr.strip s = "" <-> all_space s = true.
Proof.
  unfold PyStr.strip. rewrite rstrip_empty_iff. now rewrite all_space_lstrip.
Qed.

Lemma strip_nonempty_iff s : PyStr.strip s <> "" <-> all_space s = false.
Proof.
  rewrite strip_empty_iff. now destruct (all_space s).
Qed.

(** X1. A message whose text is a str is dropped with the warning exactly
    when every code point of the text is whitespace; the handler then does
    nothing else. *)
Theorem message_dropped_iff_all_space sid d s :
  PyVal.lookup "text" d = Some (PStr s) ->
  (trace (message_ sid (PDict d)) =
     [Log INFO [Lit "Message from "; Fstr sid; Lit ": "; Fval (PDict d)] None;
      Log WARNING [Lit "Received empty message from "; Fstr sid] None]
   <-> all_space s = true).
Proof.
  intros Hd. split.
  - intros Ht. destruct (all_space s) eqn:Hs; [reflexivity|].
    apply strip_nonempty_iff in Hs.
    destruct (process_message_spec key url post (PyStr.strip s))
      as (rt & Ho & _).
    rewrite (message_trace_routed sid d s rt Hd Hs Ho) in Ht.
    destruct (process_message_first_log (PyStr.strip s)) as (msg & rest & Hp).
    rewrite Hp in Ht. discriminate.
  - intros Hs. apply strip_empty_iff in Hs.
    rewrite message_blank; [reflexivity|]. right. eauto.
Qed.

Lemma strip_pad p s q :
  all_space p = true -> all_space q = true ->
  PyStr.strip (p ++ s ++ q) = PyStr.strip s.
Proof.
  intros Hp Hq. unfold PyStr.strip. rewrite (lstrip_pad p _ Hp).
  destruct (PyStr.lstrip s) as [|a t] eqn:Hs.
  - assert (Ha : all_space s = true)
      by (rewrite <- all_space_lstrip, Hs; reflexivity).
    rewrite lstrip_all_space; [reflexivity|].
    now rewrite all_space_app, Ha, Hq.
  - rewrite lstrip_app_nonblank by (rewrite Hs; discriminate).
    rewrite Hs. now apply rstrip_pad.
Qed.

(** X2. The [user_message] of line 96 never begins or ends with a
    whitespace code point, and trimming it once more changes nothing. *)
Theorem user_message_is_trimmed s :
  PyStr.strip (PyStr.strip s) = PyStr.strip s /\
  (forall c r, PyStr.strip s = String c r -> PyStr.isspace c = false) /\
  (forall r c, PyStr.strip s = r ++ String c "" -> PyStr.isspace c = false).
Proof.
  unfold PyStr.strip. repeat split.
  - destruct (PyStr.lstrip s) as [|a t] eqn:Hs; [reflexivity|].
    pose proof (lstrip_no_leading_space s a t Hs) as Ha.
    destruct (rstrip_head a t Ha) as (r' & Hr).
    rewrite Hr, (lstrip_fixed a r' Ha), <- Hr. apply rstrip_idempotent.
  - intros c r. destruct (PyStr.lstrip s) as [|a t] eqn:Hs; [discriminate|].
    pose proof (lstrip_no_leading_space s a t Hs) as Ha.
    destruct (rstrip_head a t Ha) as (r' & Hr).
    rewrite Hr. now intros [= <- _].
  - intros r c. apply rstrip_last.
Qed.

(** X3. Whitespace around the text changes neither what is posted nor what
    is emitted: the text [p ++ s ++ q], with [p] and [q] blank, is handled
    as [s] is. *)
Theorem surrounding_whitespace_is_ignored sid d d' p s q :
  all_space p = true ->
  all_space q = true ->
  PyVal.lookup "text" d = Some (PStr (p ++ s ++ q)) ->
  PyVal.lookup "text" d' = Some (PStr s) ->
  outcome (message_ sid (PDict d)) = outcome (message_ sid (PDict d')) /\
  posts (trace (message_ sid (PDict d))) = posts (trace (message_ sid (PDict d'))) /\
  emits (trace (message_ sid (PDict d))) = emits (trace (message_ sid (PDict d'))).
Proof.
  intros Hp Hq Hd Hd'.
  pose proof (strip_pad p s q Hp Hq) as Hstrip.
  destruct (String.eqb_spec (PyStr.strip s) "") as [Hs|Hs].
  - rewrite !message_blank; [now cbn | right; eauto | right].
    exists (p ++ s ++ q). now rewrite Hstrip.
  - destruct (process_message_spec key url post (PyStr.strip s))
      as (rt & Ho & _).
    destruct (message_routed key url post emit sid d' s rt Hd' Hs Ho)
      as (Hout' & Hposts' & Hemits').
    assert (Hs2 : PyStr.strip (p ++ s ++ q) <> "") by now rewrite Hstrip.
    assert (Ho2 : outcome (process_ (PyStr.strip (p ++ s ++ q))) =
                  Returns (PStr rt)) by now rewrite Hstrip.
    destruct (message_routed key url post emit sid d (p ++ s ++ q) rt Hd Hs2 Ho2)
      as (Hout & Hposts & Hemits).
    rewrite Hout, Hout', Hposts, Hposts', Hemits, Hemits', Hstrip. auto.
Qed.

(** X4. On a payload made of JSON values (no binary attachment), the
    handler raises exactly when the payload is not a dict, or its [text] is
    present and not a str: the [AttributeError] of line 96 reaches the
    caller after the first log line, with nothing posted or emitted. On
    every other such payload it returns. *)
Theorem message_raises_only_on_bad_json_payload sid data :
  match json_payload_error data with
  | None => outcome (message_ sid data) = Returns tt
  | Some e =>
      message_ sid data =
        ([Log INFO [Lit "Message from "; Fstr sid; Lit ": "; Fval data] None],
         Raises e)
  end.
Proof.
  destruct data as [| | | | |l|d]; try reflexivity.
  cbn [json_payload_error].
  destruct (PyVal.lookup "text" d) as [v|] eqn:Hd.
  - destruct v as [| | | |s| |];
      try (unfold message, logger, lift, bind; cbn [PyVal.get];
           rewrite Hd; reflexivity).
    destruct (String.eqb_spec (PyStr.strip s) "") as [Hs|Hs].
    + rewrite message_blank; [reflexivity|]. right. eauto.
    + destruct (process_message_spec key url post (PyStr.strip s))
        as (rt & Ho & _).
      now destruct (message_routed key url post emit sid d s rt Hd Hs Ho).
  - rewrite message_blank; [reflexivity|]. now left.
Qed.

Lemma call_openai_no_critical um :
  filter is_critical (trace (call_ um)) = [].
Proof.
  unfold call_openai, requests_post, bind, lift.
  destruct (post _) as [resp|e]; [|now cbn].
  destruct (raise_for_status resp); [|now cbn].
  destruct (json resp) as [body|]; [|now cbn].
  destruct (has_choices body) as [[|]|]; [| now cbn | now cbn].
  destruct (first_choice_content body) as [content|]; [|now cbn].
  destruct (PyVal.strip content); now cbn.
Qed.

Lemma openai_handlers_no_critical e :
  filter is_critical (trace (openai_handlers e)) = [].
Proof.
  unfold openai_handlers.
  destruct (isinstance e Timeout); [reflexivity|].
  destruct (isinstance e RequestException); reflexivity.
Qed.

Lemma send_response_no_critical sid v :
  filter is_critical (trace (send_ sid v)) = [].
Proof.
  unfold send_response. destruct (PyVal.truthy v); [|reflexivity].
  unfold try_except, sio_emit, bind.
  destruct (emit _ _ _) as [[]|e]; reflexivity.
Qed.

Lemma try_except_trace {A} (m : M A) (h : exception -> M A) :
  trace (try_except m h) =
    (trace m ++ match outcome m with
                | Returns _ => []
                | Raises e => trace (h e)
                end)%list.
Proof.
  destruct m as [t [a|e]]; cbn.
  - now rewrite app_nil_r.
  - now destruct (h e).
Qed.

Lemma process_message_trace_call um :
  is_canned um = false ->
  credential_configured key = true ->
  trace (process_ um) =
    Log INFO [Lit "Sending message to OpenAI API: '"; Fstr um; Lit "'"] None
      :: (trace (call_ um) ++
          match outcome (call_ um) with
          | Returns _ => []
          | Raises e => trace (openai_handlers e)
          end)%list.
Proof.
  unfold is_canned. intros Hc Hk.
  rewrite process_message_miss; auto.
  - unfold logger, bind.
    rewrite (surjective_M (try_except _ _)), try_except_trace. reflexivity.
  - now destruct (PyVal.lookup _ canned_responses).
Qed.

(** X5. For a text that is not blank, the one request is posted exactly
    when the lowered text misses the table and a credential is configured,
    and it is the request built from the trimmed text, its case kept; the
    CRITICAL line is logged exactly when the text misses the table and no
    credential is configured. *)
Theorem outbound_call_decision sid d s :
  PyVal.lookup "text" d = Some (PStr s) ->
  all_space s = false ->
  posts (trace (message_ sid (PDict d))) =
    (if is_canned (PyStr.strip s) || negb (credential_configured key)
     then [] else [Post (request_ (PyStr.strip s))]) /\
  filter is_critical (trace (message_ sid (PDict d))) =
    (if negb (is_canned (PyStr.strip s)) && negb (credential_configured key)
     then [Log CRITICAL [Lit "OPENAI_API_KEY is not set. Cannot call OpenAI API."] None]
     else []).
Proof.
  intros Hd Hs. apply strip_nonempty_iff in Hs.
  destruct (process_message_spec key url post (PyStr.strip s)) as (rt & Ho & _).
  destruct (message_routed key url post emit sid d s rt Hd Hs Ho)
    as (_ & Hposts & _).
  rewrite Hposts, (message_trace_routed sid d s rt Hd Hs Ho).
  cbn [filter is_critical]. rewrite filter_app, send_response_no_critical, app_nil_r.
  destruct (is_canned (PyStr.strip s)) eqn:Hc.
  - unfold is_canned in Hc. unfold process_message.
    destruct (PyVal.lookup _ canned_responses); [|discriminate]. now cbn.
  - destruct (credential_configured key) eqn:Hk; cbn [negb orb andb].
    + rewrite (process_message_trace_call _ Hc Hk).
      destruct (call_openai_trace key url post (PyStr.strip s)) as (Hp & _).
      unfold posts in *. cbn [filter is_post is_critical].
      rewrite !filter_app, Hp, call_openai_no_critical.
      destruct (outcome (call_ (PyStr.strip s))) as [v|e]; [now cbn|].
      destruct (openai_handlers_spec e) as (_ & _ & _ & Hhp & _).
      unfold posts in Hhp. now rewrite Hhp, openai_handlers_no_critical.
    + unfold is_canned in Hc. unfold process_message, credential_configured in *.
      destruct (PyVal.lookup _ canned_responses); [discriminate|].
      rewrite Hk. now cbn.
Qed.

Lemma contains_raises k v e :
  PyVal.contains k v = Raises e -> builtin_error e.
Proof.
  destruct v; cbn; intros [= <-]; split; reflexivity.
Qed.

Lemma getitem_key_raises v k e :
  PyVal.getitem_key v k = Raises e -> builtin_error e.
Proof.
  destruct v; cbn; try (intros [= <-]; split; reflexivity).
  destruct (PyVal.lookup k d); intros [= <-]; split; reflexivity.
Qed.

Lemma getitem_index_raises v i e :
  PyVal.getitem_index v i = Raises e -> builtin_error e.
Proof.
  destruct v; cbn; try (intros [= <-]; split; reflexivity).
  - destruct (PyVal.index_in i (String.length s)) as [n|];
      [destruct (String.get n s)|]; intros [= <-]; split; reflexivity.
  - destruct (PyVal.index_in i (List.length l)) as [n|];
      [destruct (nth_error l n)|]; intros [= <-]; split; reflexivity.
Qed.

Lemma strip_raises v e :
  PyVal.strip v = Raises e -> builtin_error e.
Proof.
  destruct v; cbn; intros [= <-]; split; reflexivity.
Qed.

Lemma has_choices_raises body e :
  has_choices body = Raises e -> builtin_error e.
Proof.
  unfold has_choices, rbind.
  destruct (PyVal.truthy body); cbn [negb]; [|discriminate].
  destruct (PyVal.contains "choices" body) as [[|]|e'] eqn:Hc; cbn [negb].
  - destruct (PyVal.getitem_key body "choices") eqn:Hg; [discriminate|].
    intros [= <-]. eapply getitem_key_raises; eauto.
  - discriminate.
  - intros [= <-]. eapply contains_raises; eauto.
Qed.

Lemma first_choice_content_raises body e :
  first_choice_content body = Raises e -> builtin_error e.
Proof.
  unfold first_choice_content, rbind.
  destruct (PyVal.getitem_key body "choices") as [choices|] eqn:H1;
    [|intros [= <-]; eapply getitem_key_raises; eauto].
  destruct (PyVal.getitem_index choices 0) as [choice|] eqn:H2;
    [|intros [= <-]; eapply getitem_index_raises; eauto].
  destruct (PyVal.getitem_key choice "message") as [msg|] eqn:H3;
    [|intros [= <-]; eapply getitem_key_raises; eauto].
  apply getitem_key_raises.
Qed.

Lemma builtin_error_reply e :
  builtin_error e ->
  outcome (openai_handlers e) = Returns (PStr msg_internal_error).
Proof.
  intros [Ht Hr]. unfold openai_handlers. now rewrite Ht, Hr.
Qed.

(** What is replied to a body that was received and decoded. *)
Lemma decoded_body_outcome um resp body :
  post (request_ um) = Returns resp ->
  raise_for_status resp = Returns tt ->
  json resp = Returns body ->
  outcome (call_ um) =
    match has_choices body with
    | Returns false => Returns (PStr msg_uninterpretable)
    | Returns true =>
        match first_choice_content body with
        | Returns content =>
            match PyVal.strip content with
            | Returns text => Returns (PStr text)
            | Raises e => Raises e
            end
        | Raises e => Raises e
        end
    | Raises e => Raises e
    end.
Proof.
  intros H1 H2 H3. unfold call_openai, requests_post, bind, lift.
  rewrite H1, H2, H3.
  destruct (has_choices body) as [[|]|]; [| reflexivity | reflexivity].
  destruct (first_choice_content body) as [content|]; [|reflexivity].
  destruct (PyVal.strip content); reflexivity.
Qed.

(** X6. When the response has no error status but [.json()] raises an
    error that is not a [Timeout], the reply is the contact-issue apology
    with the error's text if the error is a [RequestException], and the
    internal-error apology otherwise; the handler returns. *)
Theorem undecodable_body_reply sid d s resp e :
  PyVal.lookup "text" d = Some (PStr s) ->
  all_space s = false ->
  is_canned (PyStr.strip s) = false ->
  credential_configured key = true ->
  post (request_ (PyStr.strip s)) = Returns resp ->
  raise_for_status resp = Returns tt ->
  json resp = Raises e ->
  isinstance e Timeout = false ->
  outcome (message_ sid (PDict d)) = Returns tt /\
  emits (trace (message_ sid (PDict d))) =
    [reply_to sid (if isinstance e RequestException
                   then msg_contact_issue ++ exc_str e
                   else msg_internal_error)].
Proof.
  intros Hd Hs Hc Hk Hp Hst Hj Ht. apply strip_nonempty_iff in Hs.
  assert (Hmiss : PyVal.lookup (PyStr.lower (PyStr.strip s)) canned_responses = None).
  { unfold is_canned in Hc. now destruct (PyVal.lookup _ canned_responses). }
  assert (Hraise : outcome (call_ (PyStr.strip s)) = Raises e).
  { unfold call_openai, requests_post, bind, lift. now rewrite Hp, Hst, Hj. }
  pose proof (process_message_raised key url post _ e Hmiss Hk Hraise) as Ho.
  unfold openai_handlers in Ho. rewrite Ht in Ho.
  apply (message_reply_nonempty key url post emit sid d s); auto.
  - destruct (isinstance e RequestException); exact Ho.
  - destruct (isinstance e RequestException); discriminate.
Qed.

(** X7. When the body has the expected shape but the content of the first
    choice is not a str ([null], a number, a list, ...), the reply is the
    internal-error apology. *)
Theorem non_str_content_is_internal_error sid d s resp body d0 choice rest m v :
  PyVal.lookup "text" d = Some (PStr s) ->
  all_space s = false ->
  is_canned (PyStr.strip s) = false ->
  credential_configured key = true ->
  post (request_ (PyStr.strip s)) = Returns resp ->
  raise_for_status resp = Returns tt ->
  json resp = Returns body ->
  body = PDict d0 ->
  PyVal.lookup "choices" d0 = Some (PList (PDict choice :: rest)) ->
  PyVal.lookup "message" choice = Some (PDict m) ->
  PyVal.lookup "content" m = Some v ->
  is_str_value v = false ->
  outcome (message_ sid (PDict d)) = Returns tt /\
  emits (trace (message_ sid (PDict d))) = [reply_to sid msg_internal_error].
Proof.
  intros Hd Hs Hc Hk Hp Hst Hj -> Hch Hm Hv Hnot.
  apply strip_nonempty_iff in Hs.
  assert (Hmiss : PyVal.lookup (PyStr.lower (PyStr.strip s)) canned_responses = None).
  { unfold is_canned in Hc. now destruct (PyVal.lookup _ canned_responses). }
  assert (Hhas : has_choices (PDict d0) = Returns true).
  { unfold has_choices, rbind. cbn [PyVal.truthy PyVal.contains PyVal.getitem_key].
    rewrite Hch. destruct d0; [discriminate|]. reflexivity. }
  assert (Hcont : first_choice_content (PDict d0) = Returns v).
  { unfold first_choice_content, rbind. cbn [PyVal.getitem_key].
    rewrite Hch. cbn. rewrite Hm. cbn. now rewrite Hv. }
  assert (Hstrip : exists e, PyVal.strip v = Raises e).
  { destruct v; cbn; eauto. discriminate. }
  destruct Hstrip as (e & He).
  assert (Hraise : outcome (call_ (PyStr.strip s)) = Raises e).
  { rewrite (decoded_body_outcome _ resp (PDict d0)); auto.
    now rewrite Hhas, Hcont, He. }
  pose proof (process_message_raised key url post _ e Hmiss Hk Hraise) as Ho.
  rewrite (builtin_error_reply e (strip_raises v e He)) in Ho.
  apply (message_reply_nonempty key url post emit sid d s); auto. discriminate.
Qed.

Lemma lacks_choices_has_choices body :
  lacks_choices body = true -> has_choices body = Returns false.
Proof.
  unfold lacks_choices, has_choices, rbind.
  destruct (PyVal.truthy body); cbn [negb orb]; [|reflexivity].
  destruct body as [| | | |t|l|d]; try discriminate;
    cbn [PyVal.contains PyVal.getitem_key].
  - intros H. apply negb_true_iff in H. now rewrite H.
  - intros H. apply negb_true_iff in H. now rewrite H.
  - destruct (PyVal.lookup "choices" d); cbn [negb]; [|reflexivity].
    intros H. apply negb_true_iff in H. now rewrite H.
Qed.

(** X8. A decoded body that is falsy ([null], [{}], [[]], [0], ...), or an
    object without [choices] or with falsy [choices], or an array or a str
    not holding ['choices'], is answered with the uninterpretable-response
    apology. *)
Theorem body_without_choices_is_uninterpretable sid d s resp body :
  PyVal.lookup "text" d = Some (PStr s) ->
  all_space s = false ->
  is_canned (PyStr.strip s) = false ->
  credential_configured key = true ->
  post (request_ (PyStr.strip s)) = Returns resp ->
  raise_for_status resp = Returns tt ->
  json resp = Returns body ->
  lacks_choices body = true ->
  outcome (message_ sid (PDict d)) = Returns tt /\
  emits (trace (message_ sid (PDict d))) = [reply_to sid msg_uninterpretable].
Proof.
  intros Hd Hs Hc Hk Hp Hst Hj Hl. apply strip_nonempty_iff in Hs.
  assert (Hmiss : PyVal.lookup (PyStr.lower (PyStr.strip s)) canned_responses = None).
  { unfold is_canned in Hc. now destruct (PyVal.lookup _ canned_responses). }
  apply (message_reply_nonempty key url post emit sid d s); auto; [|discriminate].
  apply (no_choices_uninterpretable key url post _ resp body); auto.
  now apply lacks_choices_has_choices.
Qed.

(** X9. A body that was received and decoded is answered in one of three
    ways only: the trimmed content of the first choice, the
    uninterpretable-response apology, or the internal-error apology; never
    the timeout or the contact-issue one. *)
Theorem decoded_body_replies um resp body :
  is_canned um = false ->
  credential_configured key = true ->
  post (request_ um) = Returns resp ->
  raise_for_status resp = Returns tt ->
  json resp = Returns body ->
  outcome (process_ um) = Returns (PStr msg_uninterpretable) \/
  outcome (process_ um) = Returns (PStr msg_internal_error) \/
  exists c, first_choice_content body = Returns (PStr c) /\
            outcome (process_ um) = Returns (PStr (PyStr.strip c)).
Proof.
  intros Hc Hk Hp Hst Hj.
  assert (Hmiss : PyVal.lookup (PyStr.lower um) canned_responses = None).
  { unfold is_canned in Hc. now destruct (PyVal.lookup _ canned_responses). }
  pose proof (decoded_body_outcome um resp body Hp Hst Hj) as Ho.
  assert (Herr : forall e, outcome (call_ um) = Raises e -> builtin_error e ->
                 outcome (process_ um) = Returns (PStr msg_internal_error)).
  { intros e He Hb.
    rewrite (process_message_raised key url post um e Hmiss Hk He).
    now apply builtin_error_reply. }
  destruct (has_choices body) as [[|]|e] eqn:Hh.
  - destruct (first_choice_content body) as [content|e] eqn:Hf.
    + destruct (PyVal.strip content) as [text|e] eqn:Hs.
      * apply strip_returns in Hs as (c & -> & ->).
        right. right. exists c. split; [reflexivity|].
        now apply process_message_returned.
      * right. left. eauto using strip_raises.
    + right. left. eauto using first_choice_content_raises.
  - left. now apply process_message_returned.
  - right. left. eauto using has_choices_raises.
Qed.

(** X10. Once a reply is computed, the handler emits it and logs one line:
    INFO when [sio.emit] returned, ERROR with the error's text when it
    raised. A delivery failure is not retried and does not reach the
    caller. *)
Theorem delivery_is_logged sid d s rt :
  PyVal.lookup "text" d = Some (PStr s) ->
  all_space s = false ->
  outcome (process_ (PyStr.strip s)) = Returns (PStr rt) ->
  rt <> "" ->
  outcome (message_ sid (PDict d)) = Returns tt /\
  trace (message_ sid (PDict d)) =
    (Log INFO [Lit "Message from "; Fstr sid; Lit ": "; Fval (PDict d)] None
       :: trace (process_ (PyStr.strip s)) ++
     [ reply_to sid rt;
       match emit "message" (PDict [("user", PStr "Butler"); ("text", PStr rt)])
               (Some sid) with
       | Returns _ =>
           Log INFO [Lit "Sent response to "; Fstr sid; Lit ": "; Fval (PStr rt)] None
       | Raises e =>
           Log ERROR [Lit "Error sending message to client "; Fstr sid; Lit ": ";
                      Fstr (exc_str e)] None
       end ])%list.
Proof.
  intros Hd Hs Ho Hrt. apply strip_nonempty_iff in Hs.
  split; [now destruct (message_routed key url post emit sid d s rt Hd Hs Ho)|].
  rewrite (message_trace_routed sid d s rt Hd Hs Ho). f_equal. f_equal.
  unfold send_response, try_except, sio_emit, bind, reply_to.
  apply truthy_PStr in Hrt. rewrite Hrt.
  destruct (emit _ _ _) as [[]|e]; reflexivity.
Qed.

(** X11. The handler keeps nothing between sessions: the same payload gets
    the same reply text and the same request whatever the session is. *)
Theorem reply_does_not_depend_on_session sid1 sid2 data :
  map emit_text (emits (trace (message_ sid1 data))) =
    map emit_text (emits (trace (message_ sid2 data))) /\
  posts (trace (message_ sid1 data)) = posts (trace (message_ sid2 data)).
Proof.
  destruct data as [| | | | |l|d]; try (split; reflexivity).
  destruct (PyVal.lookup "text" d) as [v|] eqn:Hd.
  - destruct v as [| | | |s| |];
      try (unfold message, logger, lift, bind; cbn [PyVal.get];
           rewrite Hd; split; reflexivity).
    destruct (String.eqb_spec (PyStr.strip s) "") as [Hs|Hs].
    + rewrite !message_blank; [split; reflexivity | |]; right; eauto.
    + destruct (process_message_spec key url post (PyStr.strip s))
        as (rt & Ho & He & _).
      destruct (message_routed key url post emit sid1 d s rt Hd Hs Ho)
        as (_ & Hp1 & He1).
      destruct (message_routed key url post emit sid2 d s rt Hd Hs Ho)
        as (_ & Hp2 & He2).
      rewrite Hp1, Hp2, He1, He2, He. cbn [app].
      split; [|reflexivity]. now destruct (rt =? "").
  - rewrite !message_blank; [split; reflexivity | |]; now left.
Qed.

End Handlers.

(** ** Properties of sequences of handler invocations *)

Lemma handle_events key url x :
  (emits (trace (handle key url x)) = [] \/
   exists sid d s rt,
     snd x = Message sid (PDict d) /\
     PyVal.lookup "text" d = Some (PStr s) /\ all_space s = false /\
     emits (trace (handle key url x)) = [reply_to sid rt]) /\
  (posts (trace (handle key url x)) = [] \/
   exists sid d s,
     snd x = Message sid (PDict d) /\
     PyVal.lookup "text" d = Some (PStr s) /\ all_space s = false /\
     List.length (posts (trace (handle key url x))) = 1).
Proof.
  destruct x as [w [sid environ|sid|sid data]]; unfold handle; cbn [fst snd];
    try (split; left; reflexivity).
  destruct data as [| | | | |l|d]; try (split; left; reflexivity).
  destruct (PyVal.lookup "text" d) as [v|] eqn:Hd.
  - destruct v as [| | | |s| |];
      try (unfold message, logger, lift, bind; cbn [PyVal.get];
           rewrite Hd; split; left; reflexivity).
    destruct (String.eqb_spec (PyStr.strip s) "") as [Hs|Hs].
    + rewrite message_blank; [split; left; reflexivity|]. right. eauto.
    + pose proof (proj1 (strip_nonempty_iff s) Hs) as Hns.
      destruct (process_message_spec key url (w_post w) (PyStr.strip s))
        as (rt & Ho & He & Hp & _).
      destruct (message_routed key url (w_post w) (w_emit w) sid d s rt Hd Hs Ho)
        as (_ & Hposts & Hemits).
      rewrite Hposts, Hemits, He. cbn [app]. split.
      * destruct (rt =? ""); [now left|]. right. exists sid, d, s, rt. auto.
      * destruct Hp as [-> | ->]; [now left|]. right. exists sid, d, s. auto.
  - rewrite message_blank; [split; left; reflexivity|]. now left.
Qed.

Lemma filter_emit_to sid t :
  filter (is_emit_to sid) t = filter (is_emit_to sid) (emits t).
Proof.
  unfold emits. induction t as [|ev t IH]; [reflexivity|].
  cbn [filter]. destruct ev as [lvl msg exc|r|name data [room|]]; cbn; auto.
  destruct (room =? sid); cbn; now rewrite IH.
Qed.

Lemma handle_emit_count key url sid x :
  List.length (filter (is_emit_to sid) (trace (handle key url x))) <=
    List.length (filter (is_message_from sid) [x]).
Proof.
  rewrite filter_emit_to.
  destruct (handle_events key url x) as [[He | (sid' & d & s & rt & Hx & Hd & Hs & He)] _];
    rewrite He; cbn [filter List.length]; [lia|].
  unfold is_message_from, reply_to, is_emit_to. rewrite Hx.
  destruct (sid' =? sid); cbn; lia.
Qed.

Lemma handle_post_count key url x :
  List.length (posts (trace (handle key url x))) <=
    List.length (filter is_message [x]).
Proof.
  destruct (handle_events key url x) as [_ [Hp | (sid' & d & s & Hx & Hd & Hs & Hp)]];
    rewrite Hp; cbn [filter List.length]; [lia|].
  unfold is_message. rewrite Hx. cbn. lia.
Qed.

Lemma handle_emit_rooms key url x :
  Forall (fun ev => exists sid, emit_room ev = Some sid)
         (emits (trace (handle key url x))).
Proof.
  destruct (handle_events key url x) as [[He | (sid' & d & s & rt & _ & _ & _ & He)] _];
    rewrite He; repeat constructor. now exists sid'.
Qed.

(** X12. Over any sequence of invocations of the three handlers, and
    whatever the outside world answers to each, a session is sent at most
    as many replies as it sent messages, every reply is addressed to a
    session (none is broadcast), and at most one request is posted per
    message. Connecting and disconnecting emit and post nothing. *)
Theorem replies_go_to_senders_only key url l sid :
  List.length (filter (is_emit_to sid) (run key url l)) <=
    List.length (filter (is_message_from sid) l) /\
  Forall (fun ev => exists room, emit_room ev = Some room)
         (emits (run key url l)) /\
  List.length (posts (run key url l)) <= List.length (filter is_message l).
Proof.
  unfold run, emits, posts. induction l as [|x l (IH1 & IH2 & IH3)].
  - cbn. repeat split; auto.
  - cbn [flat_map]. rewrite !filter_app, !length_app.
    pose proof (handle_emit_count key url sid x) as H1.
    pose proof (handle_post_count key url x) as H3.
    pose proof (handle_emit_rooms key url x) as H2.
    unfold emits, posts in *.
    change (x :: l) with ([x] ++ l)%list. rewrite !filter_app, !length_app.
    repeat split; [lia | | lia].
    apply Forall_app. auto.
Qed.

(** ** The allowed origins *)

Lemma split_not_nil sep s : split sep s <> [].
Proof.
  destruct s as [|c s]; cbn; [discriminate|].
  destruct (Ascii.eqb c sep); [discriminate|].
  destruct (split sep s); discriminate.
Qed.

Lemma join_cons sep a b l :
  join sep (a :: b :: l) = a ++ sep ++ join sep (b :: l).
Proof. reflexivity. Qed.

Lemma join_split sep s : join (String sep "") (split sep s) = s.
Proof.
  induction s as [|c s IH]; [reflexivity|].
  cbn [split]. pose proof (split_not_nil sep s) as Hn.
  destruct (Ascii.eqb_spec c sep) as [->|Hc].
  - destruct (split sep s) as [|p ps]; [congruence|].
    rewrite join_cons, IH. reflexivity.
  - destruct (split sep s) as [|p ps]; [congruence|].
    destruct ps as [|p' ps].
    + cbn [join] in *. now rewrite IH.
    + rewrite join_cons in *. rewrite <- IH. reflexivity.
Qed.

Lemma split_length sep s :
  List.length (split sep s) = S (count_char sep s).
Proof.
  induction s as [|c s IH]; [reflexivity|].
  cbn [split count_char]. pose proof (split_not_nil sep s) as Hn.
  destruct (Ascii.eqb c sep); cbn [List.length]; [now rewrite IH|].
  destruct (split sep s) as [|p ps]; [congruence|]. cbn in *. lia.
Qed.

Lemma split_pieces sep s :
  Forall (fun piece => count_char sep piece = 0) (split sep s).
Proof.
  induction s as [|c s IH]; [repeat constructor|].
  cbn [split]. pose proof (split_not_nil sep s) as Hn.
  destruct (Ascii.eqb c sep) eqn:Hc; [constructor; auto|].
  destruct (split sep s) as [|p ps]; [congruence|].
  inversion IH; subst. constructor; auto. cbn. now rewrite Hc.
Qed.

(** X13. The list of allowed origins is never empty, has one entry more
    than the value has commas, no entry holds a comma, and joining the
    entries with commas gives the value back: entries are kept as they are,
    blanks and empty entries included. Without the variable the list is
    [*] alone. *)
Theorem allowed_origins_round_trip env :
  join "," (ALLOWED_ORIGINS env) = origins_value env /\
  List.length (ALLOWED_ORIGINS env) = S (count_char "," (origins_value env)) /\
  Forall (fun origin => count_char "," origin = 0) (ALLOWED_ORIGINS env) /\
  ALLOWED_ORIGINS None = ["*"].
Proof.
  unfold ALLOWED_ORIGINS. fold (origins_value env).
  repeat split.
  - apply join_split.
  - apply split_length.
  - apply split_pieces.
Qed.

(** ** Startup *)

(** X14. The [__main__] block never raises. With or without a credential
    it calls [eventlet.listen] once, on the configured host and port, and
    it calls [eventlet.wsgi.server] exactly when the bind returned. The
    CRITICAL warning on the credential is logged exactly when
    [OPENAI_API_KEY] is unset or empty. An error of the bind or of the
    serving is logged at CRITICAL level with the error attached, and is the
    last thing printed. *)
Theorem startup_binds_once_then_serves key host port listen_outcome serve_outcome :
  snd (main key host port listen_outcome serve_outcome) = Returns tt /\
  filter is_listen (fst (main key host port listen_outcome serve_outcome)) =
    [Listen host port] /\
  filter is_serve (fst (main key host port listen_outcome serve_outcome)) =
    (match listen_outcome with Returns _ => [Serve] | Raises _ => [] end) /\
  existsb is_key_warning (fst (main key host port listen_outcome serve_outcome)) =
    negb (credential_configured key) /\
  match startup_error listen_outcome serve_outcome with
  | Some e =>
      exists before,
        fst (main key host port listen_outcome serve_outcome) =
          (before ++
           [ Logged CRITICAL [Lit "Failed to start server: "; Fstr (exc_str e)] (Some e);
             Printed ("Error: Failed to start server: " ++ exc_str e) ])%list
  | None =>
      List.last (fst (main key host port listen_outcome serve_outcome)) Serve = Serve
  end.
Proof.
  unfold main, startup_error.
  destruct listen_outcome as [[]|e1], serve_outcome as [[]|e2],
    (credential_configured key); cbn [negb fst snd];
    (repeat split; try reflexivity);
    match goal with
    | |- exists before, _ = (before ++ [?a; ?b])%list =>
        match goal with
        | |- exists before, (?l ++ ?m ++ ?h :: ?r :: a :: b :: nil)%list = _ =>
            exists (l ++ m ++ [h; r])%list
        | |- exists before, (?l ++ ?m ++ ?h :: a :: b :: nil)%list = _ =>
            exists (l ++ m ++ [h])%list
        end; cbn; reflexivity
    end.
Qed.

(** ** The further properties on concrete inputs *)

(** X1 at work: a text of blanks only is dropped. *)
Lemma message_dropped_iff_all_space_witness :
  trace (message (Some "sk-test") test_url
           (post_returns 200 "OK" (body_with_content "Yes.")) emit_ok
           "sid1" (PDict [("text", PStr "    ")])) =
    [Log INFO [Lit "Message from "; Fstr "sid1"; Lit ": ";
               Fval (PDict [("text", PStr "    ")])] None;
     Log WARNING [Lit "Received empty message from "; Fstr "sid1"] None].
Proof.
  apply (proj2 (message_dropped_iff_all_space (Some "sk-test") test_url
                  (post_returns 200 "OK" (body_with_content "Yes.")) emit_ok
                  "sid1" [("text", PStr "    ")] "    " eq_refl)).
  reflexivity.
Defined.

(** X3 at work: [hello] with blanks around is answered as [hello] is. *)
Lemma surrounding_whitespace_is_ignored_witness :
  outcome (message None test_url (post_raises (mk_exc ConnectionError "refused"))
             emit_ok "sid1" (payload "  hello ")) =
    outcome (message None test_url (post_raises (mk_exc ConnectionError "refused"))
               emit_ok "sid1" (payload "hello")) /\
  posts (trace (message None test_url (post_raises (mk_exc ConnectionError "refused"))
                  emit_ok "sid1" (payload "  hello "))) =
    posts (trace (message None test_url (post_raises (mk_exc ConnectionError "refused"))
                    emit_ok "sid1" (payload "hello"))) /\
  emits (trace (message None test_url (post_raises (mk_exc ConnectionError "refused"))
                  emit_ok "sid1" (payload "  hello "))) =
    emits (trace (message None test_url (post_raises (mk_exc ConnectionError "refused"))
                    emit_ok "sid1" (payload "hello"))).
Proof.
  apply (surrounding_whitespace_is_ignored None test_url
           (post_raises (mk_exc ConnectionError "refused")) emit_ok
           "sid1" [("text", PStr "  hello ")] [("text", PStr "hello")]
           "  " "hello" " "); reflexivity.
Defined.

(** X5 at work: a question that misses the table, with a credential. *)
Lemma outbound_call_decision_witness :
  posts (trace (message (Some "sk-test") test_url
                  (post_returns 200 "OK" (body_with_content "Yes.")) emit_ok
                  "sid1" (payload " Is it Raining? "))) =
    [Post (openai_request (Some "sk-test") test_url "Is it Raining?")] /\
  filter is_critical
    (trace (message (Some "sk-test") test_url
              (post_returns 200 "OK" (body_with_content "Yes.")) emit_ok
              "sid1" (payload " Is it Raining? "))) = [].
Proof.
  exact (outbound_call_decision (Some "sk-test") test_url
           (post_returns 200 "OK" (body_with_content "Yes.")) emit_ok
           "sid1" [("text", PStr " Is it Raining? ")] " Is it Raining? "
           eq_refl eq_refl).
Defined.

(** X6 at work: the library's own decoding error is a [RequestException]. *)
Lemma undecodable_body_reply_witness :
  outcome (message (Some "sk-test") test_url
             (post_undecodable (mk_exc JSONDecodeError "Expecting value"))
             emit_ok "sid1" (payload "What's the weather?")) = Returns tt /\
  emits (trace (message (Some "sk-test") test_url
                  (post_undecodable (mk_exc JSONDecodeError "Expecting value"))
                  emit_ok "sid1" (payload "What's the weather?"))) =
    [reply_to "sid1" (msg_contact_issue ++ "Expecting value")].
Proof.
  exact (undecodable_body_reply (Some "sk-test") test_url
           (post_undecodable (mk_exc JSONDecodeError "Expecting value")) emit_ok
           "sid1" [("text", PStr "What's the weather?")] "What's the weather?"
           (mk_Response 200 "OK" test_url
              (Raises (mk_exc JSONDecodeError "Expecting value")))
           (mk_exc JSONDecodeError "Expecting value")
           eq_refl eq_refl eq_refl eq_refl eq_refl eq_refl eq_refl eq_refl).
Defined.

(** X7 at work: the content of the first choice is [null]. *)
Lemma non_str_content_is_internal_error_witness :
  outcome (message (Some "sk-test") test_url
             (post_returns 200 "OK" body_with_null_content)
             emit_ok "sid1" (payload "What's the weather?")) = Returns tt /\
  emits (trace (message (Some "sk-test") test_url
                  (post_returns 200 "OK" body_with_null_content)
                  emit_ok "sid1" (payload "What's the weather?"))) =
    [reply_to "sid1" msg_internal_error].
Proof.
  exact (non_str_content_is_internal_error (Some "sk-test") test_url
           (post_returns 200 "OK" body_with_null_content) emit_ok
           "sid1" [("text", PStr "What's the weather?")] "What's the weather?"
           (mk_Response 200 "OK" test_url (Returns body_with_null_content))
           body_with_null_content
           [("choices", PList [PDict [("message", PDict [("content", PNone)])]])]
           [("message", PDict [("content", PNone)])] []
           [("content", PNone)] PNone
           eq_refl eq_refl eq_refl eq_refl eq_refl eq_refl eq_refl eq_refl
           eq_refl eq_refl eq_refl eq_refl).
Defined.

(** X8 at work: a body that reports an error and holds no [choices]. *)
Lemma body_without_choices_is_uninterpretable_witness :
  outcome (message (Some "sk-test") test_url
             (post_returns 200 "OK" body_with_error)
             emit_ok "sid1" (payload "What's the weather?")) = Returns tt /\
  emits (trace (message (Some "sk-test") test_url
                  (post_returns 200 "OK" body_with_error)
                  emit_ok "sid1" (payload "What's the weather?"))) =
    [reply_to "sid1" msg_uninterpretable].
Proof.
  exact (body_without_choices_is_uninterpretable (Some "sk-test") test_url
           (post_returns 200 "OK" body_with_error) emit_ok
           "sid1" [("text", PStr "What's the weather?")] "What's the weather?"
           (mk_Response 200 "OK" test_url (Returns body_with_error))
           body_with_error
           eq_refl eq_refl eq_refl eq_refl eq_refl eq_refl eq_refl eq_refl).
Defined.

(** X9 at work: the weather question and its answer. *)
Lemma decoded_body_replies_witness :
  outcome (process_message (Some "sk-test") test_url
             (post_returns 200 "OK" (body_with_content " Sunny today. "))
             "What's the weather?") = Returns (PStr msg_uninterpretable) \/
  outcome (process_message (Some "sk-test") test_url
             (post_returns 200 "OK" (body_with_content " Sunny today. "))
             "What's the weather?") = Returns (PStr msg_internal_error) \/
  exists c,
    first_choice_content (body_with_content " Sunny today. ") = Returns (PStr c) /\
    outcome (process_message (Some "sk-test") test_url
               (post_returns 200 "OK" (body_with_content " Sunny today. "))
               "What's the weather?") = Returns (PStr (PyStr.strip c)).
Proof.
  exact (decoded_body_replies (Some "sk-test") test_url
           (post_returns 200 "OK" (body_with_content " Sunny today. "))
           "What's the weather?"
           (mk_Response 200 "OK" test_url
              (Returns (body_with_content " Sunny today. ")))
           (body_with_content " Sunny today. ")
           eq_refl eq_refl eq_refl eq_refl eq_refl).
Defined.

(** X10 at work: the greeting cannot be delivered. *)
Lemma delivery_is_logged_witness :
  outcome (message None test_url (post_raises (mk_exc ConnectionError "refused"))
             emit_fails "sid1" (payload "Hello")) = Returns tt /\
  trace (message None test_url (post_raises (mk_exc ConnectionError "refused"))
           emit_fails "sid1" (payload "Hello")) =
    [ Log INFO [Lit "Message from "; Fstr "sid1"; Lit ": "; Fval (payload "Hello")] None;
      Log INFO [Lit "Using canned response for '"; Fstr "Hello"; Lit "': ";
                Fstr "Greetings. How may I be of service?"] None;
      reply_to "sid1" "Greetings. How may I be of service?";
      Log ERROR [Lit "Error sending message to client "; Fstr "sid1"; Lit ": ";
                 Fstr "Broken pipe"] None ].
Proof.
  refine (delivery_is_logged None test_url
            (post_raises (mk_exc ConnectionError "refused")) emit_fails
            "sid1" [("text", PStr "Hello")] "Hello"
            "Greetings. How may I be of service?"
            eq_refl eq_refl eq_refl _).
  discriminate.
Defined.

(** X2 at work: the trimmed answer begins with [S]. *)
Lemma user_message_is_trimmed_witness : PyStr.isspace "S" = false.
Proof.
  apply (proj1 (proj2 (user_message_is_trimmed " Sunny today. "))
           "S"%char "unny today.").
  reflexivity.
Defined.

(** X14 at work: the port is taken, without a credential; the server is
    never called. *)
Lemma startup_binds_once_then_serves_witness :
  snd (main None "0.0.0.0" 5000
         (Raises (mk_exc (OtherException "OSError") "Address already in use"))
         (Returns tt)) = Returns tt /\
  filter is_serve
    (fst (main None "0.0.0.0" 5000
            (Raises (mk_exc (OtherException "OSError") "Address already in use"))
            (Returns tt))) = [].
Proof.
  pose proof (startup_binds_once_then_serves None "0.0.0.0" 5000
                (Raises (mk_exc (OtherException "OSError") "Address already in use"))
                (Returns tt)) as (H1 & _ & H3 & _).
  split; [exact H1 | exact H3].
Defined.
